(** * Filtered archive transfer over an NFS-style backend

    A shallow embedding of the export (pack) and import (unpack) pipelines of
    [lib/portlayer/storage/nfs]: [data_source.go] ([packUsingTarget],
    [findReadTarget]) and [data_sink.go] ([unpackUsingTarget],
    [createRegularFile], [mkdirAll]).

    Go values are modelled as follows.
    - [string] is Rocq's [string]; comparison is byte-wise, as in Go.
    - [error] is an inductive type; a Go result [(v, err)] is a [result].
    - [os.FileMode] is a 32-bit word kept in [Z], tested with [Z.testbit].
    - the backend ([Target]) and the tar encoder are interfaces: they are type
      classes over the type of the backend store / encoder state, and every
      operation takes the state and returns the new one.
    - [op.Debugf], [op.Infof] and [op.Errorf] append to a log. *)

From Stdlib Require Import ZArith Ascii String.
From stdpp Require Import gmap strings list sorting.

Local Open Scope string_scope.
Local Open Scope list_scope.

(** ** Errors *)

Module Err.

(** The errors the two pipelines create or test for.  [Errorf] is
    [fmt.Errorf] with its format and arguments; [Backend] is any other error
    a backend or the tar codec reports. *)
Inductive error : Type :=
| ErrNotExist
| ErrPermission
| ErrExist
| EOF
| Errorf (format : string) (args : list string)
| Backend (msg : string).

(** [os.IsNotExist] and [os.IsPermission], on a possibly nil error. *)
Definition IsNotExist (err : option error) : bool :=
  match err with
  | Some ErrNotExist => true
  | _ => false
  end.

Definition IsPermission (err : option error) : bool :=
  match err with
  | Some ErrPermission => true
  | _ => false
  end.

Inductive result (A : Type) : Type :=
| Ok (a : A)
| Fail (e : error).
Arguments Ok {A} a.
Arguments Fail {A} e.

End Err.
Export Err.

(** ** Paths: [strings.TrimPrefix], [filepath.Split], [filepath.Clean],
    [filepath.Join] (Unix separators) *)

Module Path.

Definition Separator : ascii := "/"%char.

Definition isSep (c : ascii) : bool := bool_decide (c = Separator).

(** [strings.TrimPrefix s prefix]: [s] without the leading [prefix], or [s]
    itself when it does not start with [prefix]. *)
Fixpoint cutPrefix (s prefix : string) {struct prefix} : option string :=
  match prefix with
  | "" => Some s
  | String p prefix' =>
      match s with
      | String c s' => if bool_decide (c = p) then cutPrefix s' prefix' else None
      | "" => None
      end
  end.

Definition TrimPrefix (s prefix : string) : string :=
  default s (cutPrefix s prefix).

(** [filepath.Split path]: the text up to and including the final separator,
    and the text after it. *)
Fixpoint Split (path : string) : string * string :=
  match path with
  | "" => ("", "")
  | String c rest =>
      let '(dir, file) := Split rest in
      if bool_decide (dir = "") then
        if isSep c then (String c "", file) else ("", String c file)
      else (String c dir, file)
  end.

(** The fields of a path between separators: ["/a//b"] has the fields
    [""], ["a"], [""], ["b"]. *)
Fixpoint fields (s : string) : list string :=
  match s with
  | "" => [""]
  | String c rest =>
      if isSep c then "" :: fields rest
      else match fields rest with
           | f :: fs => String c f :: fs
           | [] => [String c ""]
           end
  end.

Definition rooted (s : string) : bool :=
  match s with
  | String c _ => isSep c
  | "" => false
  end.

(** One pass of [Clean] over the fields, left to right; [out] holds the
    elements kept so far, last first.  Empty and ["."] elements are dropped; a
    [".."] removes the element before it, is dropped at the root of a rooted
    path, and is kept at the start of a relative one. *)
Fixpoint cleanElems (isRooted : bool) (out : list string) (elems : list string)
  : list string :=
  match elems with
  | [] => reverse out
  | e :: rest =>
      if bool_decide (e = "") || bool_decide (e = ".") then
        cleanElems isRooted out rest
      else if bool_decide (e = "..") then
        match out with
        | top :: out' =>
            if bool_decide (top = "..") then cleanElems isRooted (e :: out) rest
            else cleanElems isRooted out' rest
        | [] =>
            if isRooted then cleanElems isRooted [] rest
            else cleanElems isRooted [e] rest
        end
      else cleanElems isRooted (e :: out) rest
  end.

Fixpoint joinElems (elems : list string) : string :=
  match elems with
  | [] => ""
  | [e] => e
  | e :: rest => e +:+ "/" +:+ joinElems rest
  end.

(** [filepath.Clean]: the shortest path equivalent to [path]; ["."] for the
    empty relative path, ["/"] for the root. *)
Definition Clean (path : string) : string :=
  let elems := cleanElems (rooted path) [] (fields path) in
  if rooted path then "/" +:+ joinElems elems
  else if bool_decide (elems = []) then "." else joinElems elems.

(** [filepath.Join a b]: the two elements joined by a separator and cleaned;
    empty elements are ignored, and the join of empty elements is empty. *)
Definition Join (a b : string) : string :=
  if bool_decide (a = "") then
    if bool_decide (b = "") then "" else Clean b
  else Clean (a +:+ "/" +:+ b).

(** [path.Base]: the last element of [path]; ["."] for the empty path and
    ["/"] for a path of separators only. *)
Definition Base (path : string) : string :=
  match reverse (filter (fun e => e <> "") (fields path)) with
  | e :: _ => e
  | [] => if bool_decide (path = "") then "." else "/"
  end.

End Path.

(** ** Files, modes and tar headers *)

Module Os.
Local Open Scope Z_scope.

(** [os.FileMode]: a 32-bit word.  The type bits are the high bits, the
    permission bits the low nine. *)
Definition FileMode : Type := Z.

Definition ModeDir : FileMode := Z.shiftl 1 31.
Definition ModeSymlink : FileMode := Z.shiftl 1 27.
Definition ModeDevice : FileMode := Z.shiftl 1 26.
Definition ModeNamedPipe : FileMode := Z.shiftl 1 25.
Definition ModeSocket : FileMode := Z.shiftl 1 24.
Definition ModeSetuid : FileMode := Z.shiftl 1 23.
Definition ModeSetgid : FileMode := Z.shiftl 1 22.
Definition ModeCharDevice : FileMode := Z.shiftl 1 21.
Definition ModeSticky : FileMode := Z.shiftl 1 20.
Definition ModeIrregular : FileMode := Z.shiftl 1 19.
Definition ModePerm : FileMode := 511.

Definition ModeType : FileMode :=
  Z.lor ModeDir (Z.lor ModeSymlink (Z.lor ModeNamedPipe (Z.lor ModeSocket
    (Z.lor ModeDevice (Z.lor ModeCharDevice ModeIrregular))))).

Definition has (m bits : FileMode) : bool := negb (Z.land m bits =? 0)%Z.

Definition IsDir (m : FileMode) : bool := has m ModeDir.
Definition IsRegular (m : FileMode) : bool := (Z.land m ModeType =? 0)%Z.
Definition Perm (m : FileMode) : FileMode := Z.land m ModePerm.

(** [os.FileInfo], as far as the pipelines read it. *)
Record FileInfo : Type := {
  Name : string;
  Size : Z;
  Mode : FileMode
}.

(** An open file on the read side: reading it to the end gives [fileData],
    and then end-of-file ([None]) or a read error. *)
Record File : Type := {
  fileData : list Byte.byte;
  fileErr : option error
}.

End Os.

Module Tar.
Local Open Scope Z_scope.

Definition TypeReg : ascii := "0"%char.
Definition TypeSymlink : ascii := "2"%char.
Definition TypeChar : ascii := "3"%char.
Definition TypeBlock : ascii := "4"%char.
Definition TypeDir : ascii := "5"%char.
Definition TypeFifo : ascii := "6"%char.

Record Header : Type := {
  Name : string;
  Typeflag : ascii;
  Mode : Z;
  Size : Z;
  Linkname : string
}.

(** Mode bits of the tar format. *)
Definition c_ISUID : Z := 2048.   (* 04000 *)
Definition c_ISGID : Z := 1024.   (* 02000 *)
Definition c_ISVTX : Z := 512.    (* 01000 *)
Definition c_ISDIR : Z := 16384.  (* 040000 *)
Definition c_ISFIFO : Z := 4096.  (* 010000 *)
Definition c_ISLNK : Z := 40960.  (* 0120000 *)
Definition c_ISBLK : Z := 24576.  (* 060000 *)
Definition c_ISCHR : Z := 8192.   (* 020000 *)
Definition c_ISSOCK : Z := 49152. (* 0140000 *)

Definition orIf (b : bool) (bits m : Z) : Z := if b then Z.lor m bits else m.

(** [header.FileInfo().Mode()]: the permission bits of the header, the
    set-id and sticky bits, and the type bits read from the header's mode and
    from its type flag. *)
Definition FileInfoMode (h : Header) : Os.FileMode :=
  let hm := Z.land (Mode h) (Z.ones 32) in
  let m0 := Os.Perm hm in
  let m1 := orIf (Os.has hm c_ISUID) Os.ModeSetuid m0 in
  let m2 := orIf (Os.has hm c_ISGID) Os.ModeSetgid m1 in
  let m3 := orIf (Os.has hm c_ISVTX) Os.ModeSticky m2 in
  let t := Z.land hm (Z.lxor (Z.ones 32) 4095) in
  let m4 :=
    if (t =? c_ISDIR)%Z then Z.lor m3 Os.ModeDir
    else if (t =? c_ISFIFO)%Z then Z.lor m3 Os.ModeNamedPipe
    else if (t =? c_ISLNK)%Z then Z.lor m3 Os.ModeSymlink
    else if (t =? c_ISBLK)%Z then Z.lor m3 Os.ModeDevice
    else if (t =? c_ISCHR)%Z then Z.lor (Z.lor m3 Os.ModeDevice) Os.ModeCharDevice
    else if (t =? c_ISSOCK)%Z then Z.lor m3 Os.ModeSocket
    else m3 in
  if bool_decide (Typeflag h = TypeSymlink) then Z.lor m4 Os.ModeSymlink
  else if bool_decide (Typeflag h = TypeChar) then
    Z.lor (Z.lor m4 Os.ModeDevice) Os.ModeCharDevice
  else if bool_decide (Typeflag h = TypeBlock) then Z.lor m4 Os.ModeDevice
  else if bool_decide (Typeflag h = TypeDir) then Z.lor m4 Os.ModeDir
  else if bool_decide (Typeflag h = TypeFifo) then Z.lor m4 Os.ModeNamedPipe
  else m4.

(** [header.FileInfo().Name()]. *)
Definition FileInfoName (h : Header) : string :=
  if Os.IsDir (FileInfoMode h) then Path.Base (Path.Clean (Name h))
  else Path.Base (Name h).

(** [tar.FileInfoHeader fi link]: a header named after the file's base name.
    Directories get a trailing separator; sockets and unknown modes are an
    error. *)
Definition FileInfoHeader (fi : Os.FileInfo) (link : string) : result Header :=
  let fm := Os.Mode fi in
  let mode0 := Os.Perm fm in
  let mode1 := orIf (Os.has fm Os.ModeSetuid) c_ISUID mode0 in
  let mode2 := orIf (Os.has fm Os.ModeSetgid) c_ISGID mode1 in
  let mode := orIf (Os.has fm Os.ModeSticky) c_ISVTX mode2 in
  let h tf name size lnk :=
    {| Name := name; Typeflag := tf; Mode := mode; Size := size;
       Linkname := lnk |} in
  if Os.IsRegular fm then Ok (h TypeReg (Os.Name fi) (Os.Size fi) "")
  else if Os.IsDir fm then Ok (h TypeDir (Os.Name fi +:+ "/") 0%Z "")
  else if Os.has fm Os.ModeSymlink then Ok (h TypeSymlink (Os.Name fi) 0%Z link)
  else if Os.has fm Os.ModeDevice then
    if Os.has fm Os.ModeCharDevice then Ok (h TypeChar (Os.Name fi) 0%Z "")
    else Ok (h TypeBlock (Os.Name fi) 0%Z "")
  else if Os.has fm Os.ModeNamedPipe then Ok (h TypeFifo (Os.Name fi) 0%Z "")
  else if Os.has fm Os.ModeSocket then
    Fail (Errorf "archive/tar: sockets not supported" [])
  else Fail (Errorf "archive/tar: unknown file mode %v" []).

(** One item of an incoming tar stream: an entry (its header and the bytes of
    its data section) or a place where decoding fails. *)
Inductive Item : Type :=
| Entry (h : Header) (data : list Byte.byte)
| Corrupt (e : error).

(** [tar.Reader]: the bytes of the current entry not read yet, and the items
    after it. *)
Record Reader : Type := {
  remaining : list Byte.byte;
  items : list Item
}.

Definition NewReader (stream : list Item) : Reader :=
  {| remaining := []; items := stream |}.

End Tar.

(** ** The filter specification and the resolver *)

Module Archive.

(** Modelled from the spec: the declaration of [archive.FilterSpec] is not
    among the sources; the fields are those of the data model (the pipelines
    read [Inclusions], [RebasePath] and [StripPath]).  [Inclusions] and
    [Exclusions] are Go maps used as sets of paths. *)
Record FilterSpec : Type := {
  TargetPath : string;
  Inclusions : gset string;
  Exclusions : gset string;
  RebasePath : string;
  StripPath : string
}.

(** The path segments of a path: its non-empty fields. *)
Definition segments (p : string) : list string :=
  filter (fun e => e <> "") (Path.fields p).

(** [under root p]: [root] is a prefix of [p], segment by segment. *)
Definition under (root p : string) : bool :=
  bool_decide (segments root `prefix_of` segments p).

(** The depth of the longest path of [s] that is a prefix of [p], if any. *)
Definition longestPrefix (s : gset string) (p : string) : option nat :=
  match filter (fun e => under e p = true) (elements s) with
  | [] => None
  | matches => Some (max_list ((fun e => length (segments e)) <$> matches))
  end.

(** Modelled from the spec: [archive.Excluded] is not among the sources.  A
    path outside the target is excluded; otherwise the longest matching
    exclusion decides, unless a matching inclusion is at least as deep. *)
Definition Excluded (p : string) (spec : FilterSpec) : bool :=
  if negb (under (TargetPath spec) p) then true
  else match longestPrefix (Exclusions spec) p with
       | None => false
       | Some e =>
           match longestPrefix (Inclusions spec) p with
           | None => true
           | Some i => (i <? e)%nat
           end
       end.

End Archive.

(** ** The backend and the tar encoder *)

(** The capabilities of [Target] the pipelines call, over a store [T].
    [Lookup]'s file handle result is never read and is left out.  [OpenFile]
    opens the file at a path for writing and [Write] writes to the file so
    opened. *)
Class Target (T : Type) : Type := {
  Lookup : T -> string -> result Os.FileInfo;
  ReadDir : T -> string -> result (list Os.FileInfo);
  Open : T -> string -> result (option Os.File);
  OpenFile : T -> string -> Os.FileMode -> T * option error;
  Write : T -> string -> list Byte.byte -> T * option error;
  Mkdir : T -> string -> Os.FileMode -> T * option error;
  Remove : T -> string -> T * option error
}.

(** [tar.Writer], over an encoder state [W]. *)
Class Encoder (W : Type) : Type := {
  WriteHeader : W -> Tar.Header -> W * option error;
  WriteData : W -> list Byte.byte -> W * option error;
  Close : W -> W * option error
}.

(** ** The operation log *)

Inductive Level : Type := LDebug | LInfo | LError.

Record LogLine : Type := {
  level : Level;
  format : string;
  args : list string
}.

Definition Debugf (fmt : string) (a : list string) : LogLine :=
  {| level := LDebug; format := fmt; args := a |}.
Definition Infof (fmt : string) (a : list string) : LogLine :=
  {| level := LInfo; format := fmt; args := a |}.
Definition Errorf_log (fmt : string) (a : list string) : LogLine :=
  {| level := LError; format := fmt; args := a |}.

(** [err.Error()], for the log. *)
Definition errorText (e : error) : string :=
  match e with
  | ErrNotExist => "file does not exist"
  | ErrPermission => "permission denied"
  | ErrExist => "file already exists"
  | EOF => "EOF"
  | Errorf fmt _ => fmt
  | Backend msg => msg
  end.

(** ** Export: [data_source.go] *)

Module Source.

(** [findReadTarget]: ["/"] without inclusions, else the first of the sorted
    inclusion paths.  [sort.Strings] orders by [<] on strings, which is
    byte-wise; [elements] is the iteration order of the map. *)
Definition findReadTarget (spec : Archive.FilterSpec) : string :=
  let mapLength := size (Archive.Inclusions spec) in
  if (mapLength =? 0)%nat then "/"
  else
    let paths := elements (Archive.Inclusions spec) in
    let sorted := merge_sort String.le paths in
    default "" (head sorted).

(** The variables of the producer task: the work list, the tar encoder, the
    variable [err] of [packUsingTarget] that the deferred function reads, and
    the log. *)
Record PackState (W : Type) : Type := {
  readList : list string;
  tw : W;
  err : option error;
  log : list LogLine
}.
Arguments readList {W} _.
Arguments tw {W} _.
Arguments err {W} _.
Arguments log {W} _.

(** What one turn of the loop ends with: the next turn, or the [return] of
    the task. *)
Inductive Flow (S : Type) : Type :=
| Next (s : S)
| Return (s : S).
Arguments Next {S} s.
Arguments Return {S} s.

(** What the reader of the pipe is left with when the task has ended: the
    encoder, every [CloseWithError] call on the write end in order, and the
    log. *)
Record Closed (W : Type) : Type := {
  encoder : W;
  closes : list (option error);
  oplog : list LogLine
}.
Arguments encoder {W} _.
Arguments closes {W} _.
Arguments oplog {W} _.

(** The error a reader of the pipe gets at the end of the stream: that of
    the first [CloseWithError] ([None]: a clean end-of-file). *)
Definition terminal {W : Type} (c : Closed W) : option error :=
  default None (head (closes c)).

Section Pack.
Context {T W : Type} `{!Target T} `{!Encoder W}.
Variable Excluded : string -> Archive.FilterSpec -> bool.
Variable nfs : T.
Variable spec : Archive.FilterSpec.

Definition setReadList (l : list string) (st : PackState W) : PackState W :=
  {| readList := l; tw := tw st; err := err st; log := log st |}.
Definition setTw (w : W) (st : PackState W) : PackState W :=
  {| readList := readList st; tw := w; err := err st; log := log st |}.
Definition logf (l : LogLine) (st : PackState W) : PackState W :=
  {| readList := readList st; tw := tw st; err := err st;
     log := log st ++ [l] |}.

(** [readList = append(readList[:0], readList[1:]...)]. *)
Definition dropFirst (st : PackState W) : PackState W :=
  setReadList (tail (readList st)) st.

(** [io.Copy(tw, f)]: the data read from [f] goes to the encoder; the error
    is that of the write, else that of the read. *)
Definition copyToTar (w : W) (f : Os.File) : W * option error :=
  let '(w', werr) := WriteData w (Os.fileData f) in
  (w', match werr with Some e => Some e | None => Os.fileErr f end).

(** The closure that reads one regular file into the encoder.  Its result
    is the error of [Open] (nil when it is a permission error) or of the
    copy. *)
Definition readFile (currentRead : string) (st : PackState W)
  : option error * PackState W :=
  match Open nfs currentRead with
  | Fail e => (if IsPermission (Some e) then None else Some e, st)
  | Ok None => (None, st)
  | Ok (Some f) =>
      let '(w', cerr) := copyToTar (tw st) f in
      let st' := setTw w' st in
      match cerr with
      | Some e =>
          (Some e, logf (Errorf_log "Error writing archive data: %s"
                                    [errorText e]) st')
      | None => (None, st')
      end
  end.

(** One turn of the loop over the work list.  Every [err] assigned here is
    a variable of the loop body or of the task, declared with [:=]; the
    [err] of [packUsingTarget] is not assigned.  The result of the closure
    goes to a variable of the [if] block and is not read.  The work list
    loses its first entry on the two [continue] paths only. *)
Definition packStep (st : PackState W) : Flow (PackState W) :=
  match readList st with
  | [] => Return st
  | currentRead :: _ =>
      if Excluded currentRead spec then Next (dropFirst st)
      else
        match Lookup nfs currentRead with
        | Fail _ => Next (dropFirst st)
        | Ok info =>
            match Tar.FileInfoHeader info "" with
            | Fail e =>
                Return (logf (Debugf
                  "Encountered error creating header for target (%s) : (%s)"
                  [currentRead; errorText e]) st)
            | Ok hdr0 =>
                let isDir := bool_decide (Tar.Typeflag hdr0 = Tar.TypeDir) in
                let hdr :=
                  if isDir then
                    {| Tar.Name := Tar.Name hdr0 +:+ "/";
                       Tar.Typeflag := Tar.Typeflag hdr0;
                       Tar.Mode := Tar.Mode hdr0;
                       Tar.Size := Tar.Size hdr0;
                       Tar.Linkname := Tar.Linkname hdr0 |}
                  else hdr0 in
                let children :=
                  if isDir then ReadDir nfs currentRead else Ok [] in
                match children with
                | Fail e =>
                    Return (logf (Debugf "Unable to read directory (%s) : %s"
                                         [currentRead; errorText e]) st)
                | Ok directoryChildren =>
                    let st1 :=
                      setReadList
                        (readList st ++ (Os.Name <$> directoryChildren)) st in
                    let '(w', werr) := WriteHeader (tw st1) hdr in
                    let st2 := setTw w' st1 in
                    let st3 :=
                      match werr with
                      | Some e =>
                          logf (Debugf
                            "Unable to write assembled header for (%s) : %s"
                            [Tar.Name hdr; errorText e]) st2
                      | None => st2
                      end in
                    if bool_decide (Tar.Typeflag hdr = Tar.TypeReg)
                       && negb (Tar.Size hdr =? 0)%Z
                    then Next (readFile currentRead st3).2
                    else Next st3
                end
            end
        end
  end.

(** [for len(readList) > 0 { ... }], for at most [fuel] turns: the state
    when the loop is left, or [None] when it is still running. *)
Fixpoint packLoop (fuel : nat) (st : PackState W) : option (PackState W) :=
  match fuel with
  | O => None
  | S fuel' =>
      match readList st with
      | [] => Some st
      | _ :: _ =>
          match packStep st with
          | Next st' => packLoop fuel' st'
          | Return st' => Some st'
          end
      end
  end.

(** The deferred function of the task: close the encoder, then close the
    write end of the pipe with the [err] of [packUsingTarget], or with the
    encoder's close error when that is nil. *)
Definition deferred (st : PackState W) : Closed W :=
  let '(w', cerr) := Close (tw st) in
  let lg :=
    match cerr with
    | Some e => log st ++ [Errorf_log "Error closing tar writer: %s"
                                      [errorText e]]
    | None => log st
    end in
  {| encoder := w';
     closes := [match err st with None => cerr | Some e => Some e end];
     oplog := lg |}.

(** The producer task of [packUsingTarget dir spec]: the walk from the read
    target, then the deferred close.  [w0] is the new tar encoder over the
    pipe.  [None]: the task has not ended within [fuel] turns of the
    loop. *)
Definition packUsingTarget (fuel : nat) (dir : string) (w0 : W)
  : option (Closed W) :=
  let targetPath := findReadTarget spec in
  let readPath := Path.Join dir targetPath in
  let lg :=
    match Lookup nfs readPath with
    | Fail _ => [Errorf_log "Lookup of target (%s) returned an error"
                            [readPath]]
    | Ok _ => []
    end in
  let st0 := {| readList := [readPath]; tw := w0; err := None; log := lg |} in
  deferred <$> packLoop fuel st0.

End Pack.

End Source.

(** ** Import: [data_sink.go] *)

Module Sink.

(** What the import touches: the backend store, the tar reader, the log. *)
Record SinkState (T : Type) : Type := {
  fs : T;
  tr : Tar.Reader;
  log : list LogLine
}.
Arguments fs {T} _.
Arguments tr {T} _.
Arguments log {T} _.

(** A call returns a value and a state, panics, or is still running when the
    fuel of its loops is spent. *)
Inductive outcome (S A : Type) : Type :=
| Done (a : A) (s : S)
| Panic (msg : string) (s : S)
| Diverge.
Arguments Done {S A} a s.
Arguments Panic {S A} msg s.
Arguments Diverge {S A}.

Definition M (S A : Type) : Type := S -> outcome S A.

Definition ret {S A : Type} (a : A) : M S A := fun s => Done a s.

Definition bind {S A B : Type} (m : M S A) (k : A -> M S B) : M S B :=
  fun s =>
    match m s with
    | Done a s' => k a s'
    | Panic msg s' => Panic msg s'
    | Diverge => Diverge
    end.

Definition panic {S A : Type} (msg : string) : M S A := fun s => Panic msg s.

Declare Scope sink_scope.
Delimit Scope sink_scope with sink.
Notation "'let*' x := m 'in' k" := (bind m (fun x => k))
  (at level 10, x name, m at level 200, k at level 200) : sink_scope.
Notation "'let*' '_' := m 'in' k" := (bind m (fun _ => k))
  (at level 10, m at level 200, k at level 200) : sink_scope.

(** [tr.Next()]: the header of the next entry, [io.EOF] at the end of the
    stream, or the decoding error. *)
Definition Next (r : Tar.Reader) : Tar.Reader * result Tar.Header :=
  match Tar.items r with
  | [] => ({| Tar.remaining := []; Tar.items := [] |}, Fail EOF)
  | Tar.Corrupt e :: rest =>
      ({| Tar.remaining := []; Tar.items := rest |}, Fail e)
  | Tar.Entry h data :: rest =>
      ({| Tar.remaining := data; Tar.items := rest |}, Ok h)
  end.

Section Unpack.
Context {T : Type} `{!Target T}.
Variable Excluded : string -> Archive.FilterSpec -> bool.

Local Open Scope sink_scope.

Definition logf (l : LogLine) : M (SinkState T) unit :=
  fun s => Done tt {| fs := fs s; tr := tr s; log := log s ++ [l] |}.

Definition lookup (path : string) : M (SinkState T) (result Os.FileInfo) :=
  fun s => Done (Lookup (fs s) path) s.

Definition onStore (op : T -> T * option error)
  : M (SinkState T) (option error) :=
  fun s =>
    let '(fs', e) := op (fs s) in
    Done e {| fs := fs'; tr := tr s; log := log s |}.

Definition next : M (SinkState T) (result Tar.Header) :=
  fun s =>
    let '(r, h) := Next (tr s) in
    Done h {| fs := fs s; tr := r; log := log s |}.

(** [io.Copy(writtenTarFile, tr)]: what is left of the current entry's data
    is read from the tar reader and written to the file opened at [path]. *)
Definition copyFromTar (path : string) : M (SinkState T) (option error) :=
  fun s =>
    let '(fs', e) := Write (fs s) path (Tar.remaining (tr s)) in
    Done e {| fs := fs';
              tr := {| Tar.remaining := []; Tar.items := Tar.items (tr s) |};
              log := log s |}.

(** [createRegularFile path flags perm tr target].  [flags] is not read.
    After a successful [Remove], [err] is nil, [os.IsNotExist(err)] is
    false and the function returns [err]. *)
Definition createRegularFile (path : string) (perm : Os.FileMode)
  : M (SinkState T) (option error) :=
  let* r := lookup path in
  match r with
  | Ok info =>
      if Os.IsDir (Os.Mode info) then
        ret (Some (Errorf
          "Cannot overwrite directory with non directory at path (%s)" [path]))
      else
        let* err := onStore (fun t => Remove t path) in
        match err with
        | Some e => ret (Some e)
        | None =>
            if negb (IsNotExist err) then ret err
            else
              let* err := onStore (fun t => OpenFile t path perm) in
              match err with
              | Some _ => ret None
              | None => copyFromTar path
              end
        end
  | Fail e =>
      if negb (IsNotExist (Some e)) then ret (Some e)
      else
        let* err := onStore (fun t => OpenFile t path perm) in
        match err with
        | Some _ => ret None
        | None => copyFromTar path
        end
  end.

(** The middle loop of [mkdirAll], which collects the missing directories.
    [currentPath, dirToAdd := filepath.Split(currentPath)] declares both
    names in the body of the loop, so the [currentPath] the loop tests is
    the same on every turn.  The result is the list when the loop breaks,
    or the error it returns. *)
Fixpoint collectMissing (fuel : nat) (path currentPath : string)
    (dirsToCreate : list string)
  : M (SinkState T) (result (list string)) :=
  match fuel with
  | O => fun _ => Diverge
  | S fuel' =>
      if bool_decide (currentPath = "/") then ret (Ok dirsToCreate)
      else
        let* r := lookup currentPath in
        match r with
        | Ok info =>
            if negb (Os.IsDir (Os.Mode info)) then
              ret (Fail (Errorf
                "target (%s) along mkdirall target path (%s) exists as a non directory"
                [currentPath; path]))
            else ret (Ok dirsToCreate)
        | Fail e =>
            let '(_, dirToAdd) := Path.Split currentPath in
            if IsNotExist (Some e) then
              collectMissing fuel' path currentPath (dirToAdd :: dirsToCreate)
            else ret (Fail e)
        end
  end.

(** The last loop of [mkdirAll].  [info] is the variable of the function,
    set by the first [Lookup]; calling [Mode] on a nil [info] panics. *)
Fixpoint createMissing (info : option Os.FileInfo) (currentPath : string)
    (dirsToCreate : list string) : M (SinkState T) (option error) :=
  match dirsToCreate with
  | [] => ret None
  | dir :: rest =>
      let currentPath' := Path.Join currentPath dir in
      match info with
      | None => panic "invalid memory address or nil pointer dereference"
      | Some i =>
          let* err := onStore (fun t => Mkdir t currentPath' (Os.Mode i)) in
          match err with
          | Some e => ret (Some e)
          | None => createMissing info currentPath' rest
          end
      end
  end.

(** [mkdirAll path mode target]. *)
Definition mkdirAll (fuel : nat) (path : string) (mode : Os.FileMode)
  : M (SinkState T) (option error) :=
  let '(parent, dirName) := Path.Split path in
  if negb (Os.IsDir mode) then
    ret (Some (Errorf "caller supplied non dir based file mode" []))
  else
    let* r := lookup path in
    match r with
    | Ok info =>
        if negb (Os.IsDir (Os.Mode info)) then ret (Some ErrExist)
        else ret None
    | Fail _ =>
        let* c := collectMissing fuel path parent [dirName] in
        match c with
        | Fail e => ret (Some e)
        | Ok dirsToCreate => createMissing None parent dirsToCreate
        end
    end.

(** The path an entry is written to: the entry's name without the strip
    prefix, joined onto the final target path. *)
Definition writePath (finalTargetPath strip name : string) : string :=
  let strippedTargetPath := Path.TrimPrefix name strip in
  Path.Join finalTargetPath strippedTargetPath.

(** The [default] case of the switch: the entry as a regular file. *)
Definition unpackRegular (fuel : nat) (path : string) (header : Tar.Header)
  : M (SinkState T) (option error) :=
  let* err := mkdirAll fuel path (Tar.FileInfoMode header) in
  match err with
  | Some e => ret (Some e)
  | None => createRegularFile path (Tar.FileInfoMode header)
  end.

(** The body of the loop of [unpackUsingTarget] after a header was read:
    [None] to go on with the next entry, or the error the import returns. *)
Definition unpackEntry (fuel : nat) (spec : Archive.FilterSpec)
    (finalTargetPath : string) (header : Tar.Header)
  : M (SinkState T) (option error) :=
  if Excluded (Tar.Name header) spec then ret None
  else
    let path := writePath finalTargetPath (Archive.StripPath spec)
                          (Tar.Name header) in
    if bool_decide (Tar.Typeflag header = Tar.TypeDir) then
      mkdirAll fuel path (Tar.FileInfoMode header)
    else if bool_decide (Tar.Typeflag header = Tar.TypeSymlink) then
      let* _ := logf (Infof
        "Found symlink target, nfs does not support nfs targets at this time (%s)"
        [Tar.FileInfoName header]) in
      unpackRegular fuel path header
    else unpackRegular fuel path header.

(** [for { header, err := tr.Next() ... }], for at most [fuel] entries. *)
Fixpoint unpackLoop (fuel n : nat) (spec : Archive.FilterSpec)
    (finalTargetPath : string) : M (SinkState T) (option error) :=
  match n with
  | O => fun _ => Diverge
  | S n' =>
      let* r := next in
      match r with
      | Fail EOF => ret None
      | Fail e =>
          let* _ := logf (Debugf
            "Received error (%s) when attempting a tar read operation on target stream"
            [errorText e]) in
          ret (Some e)
      | Ok header =>
          let* err := unpackEntry fuel spec finalTargetPath header in
          match err with
          | Some e => ret (Some e)
          | None => unpackLoop fuel n' spec finalTargetPath
          end
      end
  end.

(** [unpackUsingTarget op spec tarStream nfsTarget volumePath]. *)
Definition unpackUsingTarget (fuel : nat) (spec : Archive.FilterSpec)
    (tarStream : list Tar.Item) (volumePath : string)
  : M (SinkState T) (option error) :=
  let* _ := (fun s => Done tt {| fs := fs s; tr := Tar.NewReader tarStream;
                                 log := log s |}) in
  let strip := Archive.StripPath spec in
  let target := Archive.RebasePath spec in
  if bool_decide (target = "") then
    let* _ := logf (Debugf "Bad target path in FilterSpec (%#v)" []) in
    ret (Some (Errorf "Invalid write target specified" []))
  else
    let* _ := (if bool_decide (strip = "")
               then logf (Debugf "Strip path was set to empty" [])
               else ret tt) in
    let* r := lookup volumePath in
    match r with
    | Fail e =>
        let* _ := logf (Errorf_log "tar unpack target does not exist (%s)"
                                   [volumePath]) in
        ret (Some e)
    | Ok _ =>
        let finalTargetPath := Path.Join volumePath target in
        let* _ := logf (Debugf
          "finalized target path for Tar unpack operation at (%s)"
          [finalTargetPath]) in
        unpackLoop fuel fuel spec finalTargetPath
    end.

(** [NFSDataSink.Import]. *)
Definition Import (fuel : nat) (volumePath : string)
    (spec : Archive.FilterSpec) (data : list Tar.Item)
  : M (SinkState T) (option error) :=
  unpackUsingTarget fuel spec data volumePath.

End Unpack.

End Sink.

(** ** An in-memory backend and a recording encoder

    Two instances of the interfaces, to run the pipelines on concrete trees
    and streams. *)

Module Mem.

Inductive Node : Type :=
| NFile (mode : Os.FileMode) (data : list Byte.byte)
| NDir (mode : Os.FileMode).

Inductive Op : Type :=
| OpLookup | OpReadDir | OpOpen | OpOpenFile | OpWrite | OpMkdir | OpRemove.

Global Instance Op_eq_dec : EqDecision Op.
Proof. solve_decision. Defined.

(** A store: the nodes by absolute path, and the operations that are made to
    fail on a path, with their error. *)
Record Store : Type := {
  nodes : gmap string Node;
  faults : list (Op * string * error)
}.

Definition fault (m : Store) (op : Op) (path : string) : option error :=
  (fun found => found.2.2) <$> list_find (fun f => f.1 = (op, path)) (faults m).

Definition withNodes (m : Store) (n : gmap string Node) : Store :=
  {| nodes := n; faults := faults m |}.

Definition info (path : string) (n : Node) : Os.FileInfo :=
  match n with
  | NFile mode data =>
      {| Os.Name := Path.Base path; Os.Size := Z.of_nat (length data);
         Os.Mode := mode |}
  | NDir mode =>
      {| Os.Name := Path.Base path; Os.Size := 0%Z; Os.Mode := mode |}
  end.

Definition childOf (dir : string) (entry : string * Node) : bool :=
  bool_decide (Path.Clean (Path.Split entry.1).1 = Path.Clean dir)
  && negb (bool_decide (Path.Clean entry.1 = Path.Clean dir)).

Definition attempt {A : Type} (m : Store) (op : Op) (path : string)
    (k : result A) : result A :=
  match fault m op path with
  | Some e => Fail e
  | None => k
  end.

Definition change (m : Store) (op : Op) (path : string)
    (k : Store * option error) : Store * option error :=
  match fault m op path with
  | Some e => (m, Some e)
  | None => k
  end.

Global Instance Store_Target : Target Store := {|
  Lookup m path :=
    attempt m OpLookup path
      match nodes m !! path with
      | Some n => Ok (info path n)
      | None => Fail ErrNotExist
      end;
  ReadDir m path :=
    attempt m OpReadDir path
      match nodes m !! path with
      | Some (NDir _) =>
          Ok ((fun e => info e.1 e.2)
                <$> filter (fun e => childOf path e = true)
                           (map_to_list (nodes m)))
      | Some (NFile _ _) => Fail (Backend "not a directory")
      | None => Fail ErrNotExist
      end;
  Open m path :=
    attempt m OpOpen path
      match nodes m !! path with
      | Some (NFile _ data) =>
          Ok (Some {| Os.fileData := data; Os.fileErr := None |})
      | Some (NDir _) => Fail (Backend "is a directory")
      | None => Fail ErrNotExist
      end;
  OpenFile m path perm :=
    change m OpOpenFile path
      (withNodes m (<[path := NFile perm []]> (nodes m)), None);
  Write m path bytes :=
    change m OpWrite path
      match nodes m !! path with
      | Some (NFile mode data) =>
          (withNodes m (<[path := NFile mode (data ++ bytes)]> (nodes m)), None)
      | _ => (m, Some (Backend "bad file descriptor"))
      end;
  Mkdir m path mode :=
    change m OpMkdir path
      (withNodes m (<[path := NDir (Z.lor Os.ModeDir (Os.Perm mode))]> (nodes m)),
       None);
  Remove m path :=
    change m OpRemove path
      match nodes m !! path with
      | Some _ => (withNodes m (delete path (nodes m)), None)
      | None => (m, Some ErrNotExist)
      end
|}.

(** What a recording encoder has been given. *)
Inductive Written : Type :=
| RHeader (h : Tar.Header)
| RData (data : list Byte.byte)
| RTrailer.

Global Instance Recorder : Encoder (list Written) := {|
  WriteHeader w h := (w ++ [RHeader h], None);
  WriteData w data := (w ++ [RData data], None);
  Close w := (w ++ [RTrailer], None)
|}.

Definition dirMode : Os.FileMode := Z.lor Os.ModeDir 493.
Definition fileMode : Os.FileMode := 420%Z.

Definition bytes (s : string) : list Byte.byte := list_byte_of_string s.

End Mem.

(** The state after [n] turns of the loop of the producer, the loop guard
    included. *)
Fixpoint turns {T W : Type} `{!Target T} `{!Encoder W}
    (Excluded : string -> Archive.FilterSpec -> bool) (nfs : T)
    (spec : Archive.FilterSpec) (n : nat) (st : Source.PackState W)
  : Source.PackState W :=
  match n with
  | O => st
  | S n' =>
      match Source.readList st with
      | [] => st
      | _ :: _ =>
          match Source.packStep Excluded nfs spec st with
          | Source.Next st' => turns Excluded nfs spec n' st'
          | Source.Return st' => st'
          end
      end
  end.

(** The value a call returned, if it returned. *)
Definition returned {S A : Type} (o : Sink.outcome S A) : option A :=
  match o with
  | Sink.Done a _ => Some a
  | _ => None
  end.

(** ** Concrete volumes, filter specifications and streams *)

Module Cases.
Import Mem.

(** The whole volume, nothing excluded. *)
Definition everything : Archive.FilterSpec :=
  {| Archive.TargetPath := "/"; Archive.Inclusions := ∅;
     Archive.Exclusions := ∅; Archive.RebasePath := "/";
     Archive.StripPath := "" |}.

(** Target [/data], no inclusions. *)
Definition dataOnly : Archive.FilterSpec :=
  {| Archive.TargetPath := "/data"; Archive.Inclusions := ∅;
     Archive.Exclusions := ∅; Archive.RebasePath := "/";
     Archive.StripPath := "" |}.

Definition threeInclusions : Archive.FilterSpec :=
  {| Archive.TargetPath := "/"; Archive.Inclusions := {[ "/b"; "/a/x"; "/a" ]};
     Archive.Exclusions := ∅; Archive.RebasePath := "/";
     Archive.StripPath := "" |}.

(** The single file [/f] of the volume. *)
Definition onlyF : Archive.FilterSpec :=
  {| Archive.TargetPath := "/"; Archive.Inclusions := {[ "/f" ]};
     Archive.Exclusions := ∅; Archive.RebasePath := "/";
     Archive.StripPath := "" |}.

Definition noRebase : Archive.FilterSpec :=
  {| Archive.TargetPath := "/"; Archive.Inclusions := ∅;
     Archive.Exclusions := ∅; Archive.RebasePath := "";
     Archive.StripPath := "" |}.

Definition stripRebase : Archive.FilterSpec :=
  {| Archive.TargetPath := "/"; Archive.Inclusions := ∅;
     Archive.Exclusions := ∅; Archive.RebasePath := "/data/target";
     Archive.StripPath := "/src" |}.

(** An empty volume mounted at [/vol]. *)
Definition emptyVol : Store :=
  {| nodes := {[ "/vol" := NDir dirMode ]}; faults := [] |}.

(** A volume with the single file [/vol/a]. *)
Definition volA : Store :=
  {| nodes := {[ "/vol" := NDir dirMode;
                 "/vol/a" := NFile fileMode (bytes "abc") ]};
     faults := [] |}.

(** A volume with the file [/vol/f]. *)
Definition volF : Store :=
  {| nodes := {[ "/vol" := NDir dirMode;
                 "/vol/f" := NFile fileMode (bytes "old") ]};
     faults := [] |}.


(** The volume root cannot be listed. *)
Definition unlistable : Store :=
  {| nodes := {[ "/vol" := NDir dirMode ]};
     faults := [(OpReadDir, "/vol", Backend "input/output error")] |}.

(** The lookup of the volume root fails, and not because it is missing. *)
Definition stale : Store :=
  {| nodes := {[ "/vol" := NDir dirMode ]};
     faults := [(OpLookup, "/vol", Backend "stale NFS file handle")] |}.

(** [/vol/f] is listed and cannot be read, and not for lack of permission. *)
Definition unreadable : Store :=
  {| nodes := {[ "/vol" := NDir dirMode;
                 "/vol/f" := NFile fileMode (bytes "old") ]};
     faults := [(OpOpen, "/vol/f", Backend "input/output error")] |}.

(** No file can be created at [/vol/new]. *)
Definition readOnly : Store :=
  {| nodes := {[ "/vol" := NDir dirMode ]};
     faults := [(OpOpenFile, "/vol/new", Backend "read-only file system")] |}.

Definition volHeader : Tar.Header :=
  {| Tar.Name := "vol//"; Tar.Typeflag := Tar.TypeDir; Tar.Mode := 493%Z;
     Tar.Size := 0%Z; Tar.Linkname := "" |}.

Definition fHeader : Tar.Header :=
  {| Tar.Name := "f"; Tar.Typeflag := Tar.TypeReg; Tar.Mode := 420%Z;
     Tar.Size := 3%Z; Tar.Linkname := "" |}.

Definition linkEntry : Tar.Header :=
  {| Tar.Name := "/link"; Tar.Typeflag := Tar.TypeSymlink; Tar.Mode := 511%Z;
     Tar.Size := 0%Z; Tar.Linkname := "../x" |}.

Definition srcEntry : Tar.Header :=
  {| Tar.Name := "/src/etc/hosts"; Tar.Typeflag := Tar.TypeReg;
     Tar.Mode := 420%Z; Tar.Size := 3%Z; Tar.Linkname := "" |}.

Definition start (w : list Written) (l : list string)
  : Source.PackState (list Written) :=
  {| Source.readList := l; Source.tw := w; Source.err := None;
     Source.log := [] |}.

Definition sink (m : Store) (r : Tar.Reader) : Sink.SinkState Store :=
  {| Sink.fs := m; Sink.tr := r; Sink.log := [] |}.

Definition atData (s : string) : Tar.Reader :=
  {| Tar.remaining := bytes s; Tar.items := [] |}.

End Cases.


(** ** Streams and logs of an import *)

(** An item that is an entry the filter excludes. *)
Definition skipped (Excluded : string -> Archive.FilterSpec -> bool)
    (spec : Archive.FilterSpec) (item : Tar.Item) : Prop :=
  match item with
  | Tar.Entry h _ => Excluded (Tar.Name h) spec = true
  | Tar.Corrupt _ => False
  end.

(** The log lines [unpackUsingTarget] writes before its loop. *)
Definition preamble (spec : Archive.FilterSpec) (volumePath : string)
  : list LogLine :=
  (if bool_decide (Archive.StripPath spec = "")
   then [Debugf "Strip path was set to empty" []] else [])
  ++ [Debugf "finalized target path for Tar unpack operation at (%s)"
             [Path.Join volumePath (Archive.RebasePath spec)]].

(** ** The key/value store backend: [pkg/kvstore/backend.go] *)

Module KV.

(** The faults of the management plane that [isFileFault] tells apart. *)
Inductive VimFault : Type :=
| FileNotFound
| OtherVimFault (name : string).

(** The calls of [datastore.Helper] the backend makes, over a datastore
    state [D]. *)
Class Datastore (D : Type) : Type := {
  Upload : D -> list Byte.byte -> string -> D * option error;
  Mv : D -> string -> string -> D * option error;
  Download : D -> string -> result (list Byte.byte)
}.

Section Backend.
Context {D : Type} `{!Datastore D}.

(** [err.Error()]. *)
Variable Error : error -> string.

(** [soap.IsVimFault] and [soap.ToVimFault]: the fault an error carries,
    if it carries one. *)
Variable ToVimFault : error -> option VimFault.

(** [retry.Do operation retryOnError], which is not among the sources. *)
Variable retryDo :
  (D -> D * option error) -> (error -> bool) -> D -> D * option error.

(** ["404 Not Found"] is [fmt.Sprintf("%d %s", http.StatusNotFound,
    http.StatusText(http.StatusNotFound))]. *)
Definition toOsError (err : error) : error :=
  if bool_decide (Error err = "404 Not Found") then ErrNotExist else err.

Definition isFileFault (err : error) : bool :=
  match ToVimFault err with
  | Some FileNotFound => true
  | _ => false
  end.

Definition Load (d : D) (path : string) : result (list Byte.byte) :=
  match Download d path with
  | Fail err => Fail (toOsError err)
  | Ok rc => Ok rc
  end.

Definition Save (d : D) (r : list Byte.byte) (path : string)
  : D * option error :=
  let tmpfile := path +:+ ".tmp" in
  match Upload d r tmpfile with
  | (d1, Some err) => (d1, Some err)
  | (d1, None) =>
      match Mv d1 tmpfile path with
      | (d2, Some err) =>
          if isFileFault err then
            let moveOperation := fun d' => Mv d' tmpfile path in
            match retryDo moveOperation isFileFault d2 with
            | (d3, Some err') => (d3, Some err')
            | (d3, None) => (d3, None)
            end
          else (d2, Some err)
      | (d2, None) => (d2, None)
      end
  end.

End Backend.

End KV.

(** ** Waiting for and retrying tasks: [pkg/vsphere/tasks/waiter.go] *)

Module Tasks.
Local Open Scope Z_scope.

Inductive Fault : Type :=
| TaskInProgress
| OtherFault (name : string).

(** [fault.(types.TaskInProgressFault)]. *)
Definition isTaskInProgress (f : Fault) : bool :=
  match f with
  | TaskInProgress => true
  | OtherFault _ => false
  end.

Record LocalizedMethodFault : Type := {
  Fault_ : option Fault;
  LocalizedMessage : string
}.

Record TaskInfo : Type := {
  Task : string;
  Error : option LocalizedMethodFault
}.

Record TaskError : Type := {
  msg : string;
  taskError : option LocalizedMethodFault
}.

(** What one call of [f] and of the task it returns gives: [f] fails, or the
    task's [WaitForResult] returns a (possibly nil) info and a (possibly nil)
    error.  An error is kept as the text [errors.ErrorStack] gives for
    it. *)
Inductive Attempt : Type :=
| InvokeFailed (stack : string)
| Waited (info : option TaskInfo) (err : option string).

(** What the select in [Retry] sees first: the timer or the end of the
    context, with [ctx.Err()]. *)
Inductive Select : Type :=
| TimerFired
| CtxDone (err : string).

(** The error [Retry] returns: a [*TaskError] or [ctx.Err()]. *)
Inductive RetryError : Type :=
| ETask (e : TaskError)
| ECtx (e : string).

(** A call returns a value, panics on a nil pointer, or is still running
    when the fuel is spent.  [slept] lists the sleeps so far, in
    milliseconds. *)
Inductive outcome (A : Type) : Type :=
| Returned (a : A) (slept : list Z)
| Panicked (slept : list Z)
| Running.
Arguments Returned {A} a slept.
Arguments Panicked {A} slept.
Arguments Running {A}.

Definition maxBackoffFactor : Z := 16.

(** [WaitForResult ctx f], on what [f] and the task give.  [None]: the panic
    of [info.Error] on a nil [info]. *)
Definition WaitForResult (a : Attempt)
  : option (option TaskInfo * option TaskError) :=
  match a with
  | InvokeFailed stack =>
      Some (None, Some {| msg := "Failed to invoke operation: " +:+ stack;
                          taskError := None |})
  | Waited info (Some stack) =>
      match info with
      | None => None
      | Some i =>
          Some (None, Some {| msg := "Operation failed: " +:+ stack;
                              taskError := Error i |})
      end
  | Waited info None => Some (info, None)
  end.

(** [Retry ctx f].  [attempts i] is what the [i]-th call of
    [WaitForResult] meets, [selects j] and [rnd j] what the [j]-th sleep sees
    and the [j]-th draw of [r.Int63n(100)].  [taskInfo.Task] on a nil
    [taskInfo] panics. *)
Fixpoint Retry (fuel : nat) (attempts : nat -> Attempt)
    (selects : nat -> Select) (rnd : nat -> Z) (i j : nat)
    (backoffFactor : Z) (slept : list Z)
  : outcome (option TaskInfo * option RetryError) :=
  match fuel with
  | O => Running
  | S fuel' =>
      match WaitForResult (attempts i) with
      | None => Panicked slept
      | Some (taskInfo, None) => Returned (taskInfo, None) slept
      | Some (taskInfo, Some err) =>
          match taskError err with
          | None =>
              match taskInfo with
              | None => Panicked slept
              | Some _ => Returned (None, Some (ETask err)) slept
              end
          | Some lmf =>
              match Fault_ lmf with
              | None => Returned (None, Some (ETask err)) slept
              | Some fault =>
                  if isTaskInProgress fault then
                    Retry fuel' attempts selects rnd (S i) j backoffFactor
                          slept
                  else
                    let sleepValue := backoffFactor * (rnd j + 50) in
                    match selects j with
                    | CtxDone e =>
                        Returned (None, Some (ECtx e)) (slept ++ [sleepValue])
                    | TimerFired =>
                        let backoffFactor' :=
                          if backoffFactor * 2 >? maxBackoffFactor
                          then maxBackoffFactor
                          else backoffFactor * 2 in
                        match taskInfo with
                        | None => Panicked (slept ++ [sleepValue])
                        | Some _ =>
                            Retry fuel' attempts selects rnd (S i) (S j)
                                  backoffFactor' (slept ++ [sleepValue])
                        end
                    end
              end
          end
      end
  end.

(** An attempt whose task reports that it is still in progress. *)
Definition inProgress (a : Attempt) : Prop :=
  exists info stack message,
    a = Waited (Some info) (Some stack)
    /\ Error info = Some {| Fault_ := Some TaskInProgress;
                            LocalizedMessage := message |}.

End Tasks.

(** ** The container handlers and the network container (the files joined
    to [data_source.go]) *)

Module Handlers.
Local Open Scope Z_scope.

(** [exec.State], as far as the handlers name it. *)
Inductive State : Type :=
| StateRunning
| StateStopped
| StateCreated
| StateOther (n : nat).

(** The switch of [StateChangeHandler]: the state a request asks for;
    [None] is the "unknown state" answer. *)
Definition requestedState (param : string) : option State :=
  if bool_decide (param = "RUNNING") then Some StateRunning
  else if bool_decide (param = "STOPPED") then Some StateStopped
  else if bool_decide (param = "CREATED") then Some StateCreated
  else None.

(** The switch of [GetStateHandler]: the name a state is reported under;
    [None] is the service-unavailable answer. *)
Definition reportedState (s : State) : option string :=
  match s with
  | StateRunning => Some "RUNNING"
  | StateStopped => Some "STOPPED"
  | StateCreated => Some "CREATED"
  | StateOther _ => None
  end.

(** A signed 64-bit integer, wrapped. *)
Definition int64 (z : Z) : Z := (z + 2 ^ 63) mod 2 ^ 64 - 2 ^ 63.

(** [containerWaitTimeout.Seconds()] of three minutes, as an [int64]. *)
Definition containerWaitSeconds : Z := 180.

(** The timeout of the context of [ContainerWaitHandler], in nanoseconds:
    [time.Duration(defaultTimeout) * time.Second]. *)
Definition waitTimeout (paramsTimeout : Z) : Z :=
  let defaultTimeout :=
    if paramsTimeout >? 0 then paramsTimeout else containerWaitSeconds in
  int64 (defaultTimeout * 1000000000).

(** [strings.Split s sep] for a one-byte separator. *)
Fixpoint splitOn (sep : ascii) (s : string) : list string :=
  match s with
  | "" => [""]
  | String c rest =>
      if bool_decide (c = sep) then "" :: splitOn sep rest
      else match splitOn sep rest with
           | f :: fs => String c f :: fs
           | [] => [String c ""]
           end
  end.

(** [sep] is one of the bytes of [s]. *)
Fixpoint occurs (sep : ascii) (s : string) : Prop :=
  match s with
  | "" => False
  | String c rest => c = sep \/ occurs sep rest
  end.

(** The alias an endpoint reports for a network alias, in
    [convertContainerToContainerInfo]. *)
Definition endpointAlias (alias : string) : string :=
  let parts := splitOn ":"%char alias in
  if (1 <? length parts)%nat then default "" (parts !! 1%nat)
  else default "" (parts !! 0%nat).

End Handlers.

Module Network.

(** An endpoint, as far as [Container] reads it: the scope it belongs to,
    by identity. *)
Record Endpoint : Type := {
  endpointId : nat;
  Scope : nat
}.

Record Container : Type := {
  name : string;
  endpoints : list Endpoint
}.

(** [c.endpoint(s)]: the first endpoint of scope [s]. *)
Fixpoint firstOfScope (s : nat) (es : list Endpoint) : option Endpoint :=
  match es with
  | [] => None
  | e :: rest => if bool_decide (Scope e = s) then Some e
                 else firstOfScope s rest
  end.

Definition endpoint (c : Container) (s : nat) : option Endpoint :=
  firstOfScope s (endpoints c).

Definition Scopes (c : Container) : list nat := Scope <$> endpoints c.

Definition Endpoints (c : Container) : list Endpoint := endpoints c.

Definition addEndpoint (c : Container) (e : Endpoint) : Container :=
  {| name := name c; endpoints := endpoints c ++ [e] |}.

End Network.

(** ** More concrete stores, specifications and oracles *)

Module MoreCases.
Import Mem Cases.

(** Everything under [/tmp] is excluded. *)
Definition excludeTmp : Archive.FilterSpec :=
  {| Archive.TargetPath := "/"; Archive.Inclusions := ∅;
     Archive.Exclusions := {[ "/tmp" ]}; Archive.RebasePath := "/";
     Archive.StripPath := "" |}.

Definition tmpEntry : Tar.Header :=
  {| Tar.Name := "/tmp/a"; Tar.Typeflag := Tar.TypeReg; Tar.Mode := 420%Z;
     Tar.Size := 1%Z; Tar.Linkname := "" |}.

(** A regular file entry that an import into [/vol] writes to [/vol/new]. *)
Definition newEntry : Tar.Header :=
  {| Tar.Name := "/new"; Tar.Typeflag := Tar.TypeReg; Tar.Mode := 420%Z;
     Tar.Size := 3%Z; Tar.Linkname := "" |}.

Definition volInfo : Os.FileInfo :=
  {| Os.Name := "vol"; Os.Size := 0%Z; Os.Mode := dirMode |}.

Definition fInfo : Os.FileInfo :=
  {| Os.Name := "f"; Os.Size := 3%Z; Os.Mode := fileMode |}.

(** [/vol/f] is listed and may not be read. *)
Definition forbidden : Store :=
  {| nodes := {[ "/vol" := NDir dirMode;
                 "/vol/f" := NFile fileMode (bytes "old") ]};
     faults := [(OpOpen, "/vol/f", ErrPermission)] |}.

(** A volume with the empty file [/vol/f]. *)
Definition volEmptyF : Store :=
  {| nodes := {[ "/vol" := NDir dirMode; "/vol/f" := NFile fileMode [] ]};
     faults := [] |}.

Definition emptyFHeader : Tar.Header :=
  {| Tar.Name := "f"; Tar.Typeflag := Tar.TypeReg; Tar.Mode := 420%Z;
     Tar.Size := 0%Z; Tar.Linkname := "" |}.

(** [emptyVol] with the new, still empty file [/vol/new], and with the file
    written. *)
Definition volNewOpened : Store :=
  {| nodes := {[ "/vol" := NDir dirMode; "/vol/new" := NFile fileMode [] ]};
     faults := [] |}.

Definition volNewWritten : Store :=
  {| nodes := {[ "/vol" := NDir dirMode;
                 "/vol/new" := NFile fileMode (bytes "new") ]};
     faults := [] |}.

(** A datastore in memory: the files by path, and the error every move
    fails with, if moves fail. *)
Record Files : Type := {
  stored : gmap string (list Byte.byte);
  moveError : option error
}.

Global Instance Files_Datastore : KV.Datastore Files := {|
  KV.Upload d r path :=
    ({| stored := <[path := r]> (stored d); moveError := moveError d |}, None);
  KV.Mv d from to :=
    match moveError d with
    | Some e => (d, Some e)
    | None =>
        match stored d !! from with
        | Some r =>
            ({| stored := <[to := r]> (delete from (stored d));
                moveError := None |}, None)
        | None => (d, Some (Backend "404 Not Found"))
        end
    end;
  KV.Download d path :=
    match stored d !! path with
    | Some r => Ok r
    | None => Fail (Backend "404 Not Found")
    end
|}.

(** A datastore whose moves fail for lack of space. *)
Definition fullDisk : Files :=
  {| stored := ∅; moveError := Some (Backend "no space left on device") |}.

Definition fullDiskUploaded : Files :=
  {| stored := {[ "/kv/config.tmp" := bytes "v1" ]};
     moveError := Some (Backend "no space left on device") |}.

(** No error carries a fault. *)
Definition noFault (e : error) : option KV.VimFault := None.

(** A retry that runs the operation once. *)
Definition retryOnce (operation : Files -> Files * option error)
    (retryOnError : error -> bool) (d : Files) : Files * option error :=
  operation d.

Definition busyInfo : Tasks.TaskInfo :=
  {| Tasks.Task := "task-7";
     Tasks.Error := Some {| Tasks.Fault_ := Some Tasks.TaskInProgress;
                            Tasks.LocalizedMessage := "busy" |} |}.

Definition doneInfo : Tasks.TaskInfo :=
  {| Tasks.Task := "task-7"; Tasks.Error := None |}.

Definition failedInfo : Tasks.TaskInfo :=
  {| Tasks.Task := "task-7";
     Tasks.Error := Some {| Tasks.Fault_ := Some (Tasks.OtherFault "InvalidState");
                            Tasks.LocalizedMessage := "invalid" |} |}.

(** Two calls meet a task in progress, the third succeeds. *)
Definition busyTwice (n : nat) : Tasks.Attempt :=
  if (n <? 2)%nat then Tasks.Waited (Some busyInfo) (Some "in progress")
  else Tasks.Waited (Some doneInfo) None.

(** Every call meets a task that failed with another fault. *)
Definition alwaysFails (n : nat) : Tasks.Attempt :=
  Tasks.Waited (Some failedInfo) (Some "invalid state").

Definition timerFirst (n : nat) : Tasks.Select := Tasks.TimerFired.
Definition cancelled (n : nat) : Tasks.Select :=
  Tasks.CtxDone "context deadline exceeded".
Definition draws (n : nat) : Z := 42%Z.

End MoreCases.
(** * Properties *)

(** ** Paths *)

Example Join_volume : Path.Join "/mnt/vol" "/data" = "/mnt/vol/data".
Proof. reflexivity. Qed.

Example Join_dotdot : Path.Join "/mnt/vol" "../x/./y/" = "/mnt/x/y".
Proof. reflexivity. Qed.

Example Join_relative : Path.Join "" "../../a/b/../c" = "../../a/c".
Proof. reflexivity. Qed.

Example Split_file : Path.Split "/mnt/vol/f.txt" = ("/mnt/vol/", "f.txt").
Proof. reflexivity. Qed.

Example Split_plain : Path.Split "name" = ("", "name").
Proof. reflexivity. Qed.

Example TrimPrefix_strip : Path.TrimPrefix "/src/x/y" "/src" = "/x/y".
Proof. reflexivity. Qed.

Example TrimPrefix_miss : Path.TrimPrefix "/other/x" "/src" = "/other/x".
Proof. reflexivity. Qed.

Section PathFacts.
Import Path.

Lemma app_cons (c : ascii) (a b : string) :
  String c a +:+ b = String c (a +:+ b).
Proof. reflexivity. Qed.

Lemma app_empty (b : string) : "" +:+ b = b.
Proof. reflexivity. Qed.

Lemma cutPrefix_app (p t : string) : cutPrefix (p +:+ t) p = Some t.
Proof.
  induction p as [|c p IH]; [reflexivity|].
  rewrite app_cons. simpl. rewrite bool_decide_eq_true_2 by reflexivity.
  exact IH.
Qed.

Lemma TrimPrefix_app (p t : string) : TrimPrefix (p +:+ t) p = t.
Proof. unfold TrimPrefix. rewrite cutPrefix_app. reflexivity. Qed.

Lemma fields_not_nil (s : string) : fields s <> [].
Proof.
  induction s as [|c s IH]; simpl; [discriminate|].
  destruct (isSep c); [discriminate|].
  destruct (fields s); [contradiction|discriminate].
Qed.

Lemma fields_app_sep (a b : string) :
  fields (a +:+ "/" +:+ b) = fields a ++ fields b.
Proof.
  induction a as [|c a IH].
  - reflexivity.
  - rewrite app_cons. simpl. rewrite IH.
    destruct (isSep c); [reflexivity|].
    pose proof (fields_not_nil a) as Hne.
    destruct (fields a) as [|f fs]; [contradiction|reflexivity].
Qed.

Lemma cleanElems_skip_empty (r : bool) (l1 l2 out : list string) :
  cleanElems r out (l1 ++ "" :: l2) = cleanElems r out (l1 ++ l2).
Proof.
  revert out. induction l1 as [|e l1 IH]; intros out; simpl.
  - reflexivity.
  - destruct (bool_decide (e = "") || bool_decide (e = ".")); [apply IH|].
    destruct (bool_decide (e = "..")).
    + destruct out as [|top out'].
      * destruct r; apply IH.
      * destruct (bool_decide (top = "..")); apply IH.
    + apply IH.
Qed.

Lemma rooted_app (a b : string) : a <> "" -> rooted (a +:+ b) = rooted a.
Proof. destruct a; [contradiction|reflexivity]. Qed.

Lemma cleanElems_no_empty (r : bool) (elems out : list string) :
  Forall (fun e => e <> "") out ->
  Forall (fun e => e <> "") (cleanElems r out elems).
Proof.
  revert out. induction elems as [|e elems IH]; intros out Hout; simpl.
  - unfold reverse. rewrite <- rev_alt. apply Forall_rev. exact Hout.
  - destruct (bool_decide (e = "")) eqn:He; simpl; [apply IH, Hout|].
    apply bool_decide_eq_false in He.
    destruct (bool_decide (e = ".")); [apply IH, Hout|].
    destruct (bool_decide (e = "..")).
    + destruct out as [|top out'].
      * destruct r; apply IH; auto.
      * destruct (bool_decide (top = "..")); apply IH; auto.
        inversion Hout; assumption.
    + apply IH; auto.
Qed.

Lemma joinElems_not_empty (elems : list string) :
  elems <> [] -> Forall (fun e => e <> "") elems -> joinElems elems <> "".
Proof.
  destruct elems as [|e rest]; [contradiction|].
  intros _ Hall. inversion Hall as [|? ? He _]; subst.
  destruct e as [|c e]; [contradiction|].
  destruct rest; simpl; [discriminate|].
  rewrite app_cons. discriminate.
Qed.

Lemma Clean_not_empty (p : string) : Clean p <> "".
Proof.
  unfold Clean. destruct (rooted p); [discriminate|].
  case_bool_decide as Hnil; [discriminate|].
  apply joinElems_not_empty; [exact Hnil|].
  apply cleanElems_no_empty. constructor.
Qed.

Lemma Join_not_empty (a b : string) : b <> "" -> Join a b <> "".
Proof.
  intros Hb. unfold Join.
  case_bool_decide; [|apply Clean_not_empty].
  rewrite bool_decide_eq_false_2 by exact Hb. apply Clean_not_empty.
Qed.

(** Joining onto a non-empty path ignores a leading separator of the
    second element. *)
Lemma Join_leading_sep (a x : string) :
  a <> "" -> Join a ("/" +:+ x) = Join a x.
Proof.
  intros Ha. unfold Join. rewrite !bool_decide_eq_false_2 by exact Ha.
  unfold Clean. rewrite !rooted_app by exact Ha.
  rewrite (fields_app_sep a ("/" +:+ x)), (fields_app_sep a x).
  change (fields ("/" +:+ x)) with ("" :: fields x).
  rewrite cleanElems_skip_empty. reflexivity.
Qed.

End PathFacts.

(** ** Import *)

Section SinkFacts.
Context {T : Type} `{!Target T}.
Variable Excluded : string -> Archive.FilterSpec -> bool.

Import Sink.

(** An existing entry that is not a directory is removed, and the function
    then returns nil: the file is neither opened nor written, and the tar
    reader is where it was. *)
Lemma createRegularFile_existing (path : string) (perm : Os.FileMode)
    (st : SinkState T) (info : Os.FileInfo) (fs' : T) :
  Lookup (fs st) path = Ok info ->
  Os.IsDir (Os.Mode info) = false ->
  Remove (fs st) path = (fs', None) ->
  createRegularFile path perm st
    = Done None {| fs := fs'; tr := tr st; log := log st |}.
Proof.
  intros Hl Hd Hr. unfold createRegularFile, bind, lookup, onStore.
  rewrite Hl, Hd, Hr. reflexivity.
Qed.

(** An existing directory is a conflict; the store is not touched. *)
Lemma createRegularFile_directory (path : string) (perm : Os.FileMode)
    (st : SinkState T) (info : Os.FileInfo) :
  Lookup (fs st) path = Ok info ->
  Os.IsDir (Os.Mode info) = true ->
  createRegularFile path perm st
    = Done (Some (Errorf
        "Cannot overwrite directory with non directory at path (%s)" [path]))
        st.
Proof.
  intros Hl Hd. unfold createRegularFile, bind, lookup.
  rewrite Hl, Hd. reflexivity.
Qed.

(** A missing entry is created and written from the rest of the data of
    the current tar entry. *)
Lemma createRegularFile_fresh (path : string) (perm : Os.FileMode)
    (st : SinkState T) (fs1 fs2 : T) (werr : option error) :
  Lookup (fs st) path = Fail ErrNotExist ->
  OpenFile (fs st) path perm = (fs1, None) ->
  Write fs1 path (Tar.remaining (tr st)) = (fs2, werr) ->
  createRegularFile path perm st
    = Done werr {| fs := fs2;
                   tr := {| Tar.remaining := [];
                            Tar.items := Tar.items (tr st) |};
                   log := log st |}.
Proof.
  intros Hl Ho Hw. unfold createRegularFile, bind, lookup, onStore, copyFromTar.
  rewrite Hl. simpl. rewrite Ho. simpl. rewrite Hw. reflexivity.
Qed.

(** C8: for a tar entry named S/x that is not excluded, with StripPath S and
    a non-empty RebasePath R, the path the entry is written to is the write
    root joined with R joined with x, and the entry is processed at that
    path. *)
Theorem C8_write_path_strip_then_rebase (fuel : nat)
    (spec : Archive.FilterSpec) (volumePath x : string)
    (header : Tar.Header) :
  Archive.RebasePath spec <> "" ->
  Tar.Name header = Archive.StripPath spec +:+ "/" +:+ x ->
  Excluded (Tar.Name header) spec = false ->
  let finalTargetPath := Path.Join volumePath (Archive.RebasePath spec) in
  let path := Path.Join (Path.Join volumePath (Archive.RebasePath spec)) x in
  writePath finalTargetPath (Archive.StripPath spec) (Tar.Name header) = path
  /\ unpackEntry Excluded fuel spec finalTargetPath header
     = if bool_decide (Tar.Typeflag header = Tar.TypeDir) then
         mkdirAll fuel path (Tar.FileInfoMode header)
       else if bool_decide (Tar.Typeflag header = Tar.TypeSymlink) then
         bind (logf (Infof
           "Found symlink target, nfs does not support nfs targets at this time (%s)"
           [Tar.FileInfoName header]))
           (fun _ => unpackRegular fuel path header)
       else unpackRegular fuel path header.
Proof.
  intros HR Hname Hex finalTargetPath path.
  assert (Hpath : writePath finalTargetPath (Archive.StripPath spec)
                            (Tar.Name header) = path).
  { unfold writePath. rewrite Hname, TrimPrefix_app.
    apply Join_leading_sep. apply Join_not_empty, HR. }
  split; [exact Hpath|].
  unfold unpackEntry. rewrite Hex, Hpath. reflexivity.
Qed.

(** C9: with an empty RebasePath, Import returns the error "Invalid write
    target specified" at once: the store is unchanged and no entry of the
    stream has been read. *)
Theorem C9_empty_rebase_rejected (fuel : nat) (volumePath : string)
    (spec : Archive.FilterSpec) (data : list Tar.Item) (st : SinkState T) :
  Archive.RebasePath spec = "" ->
  Import Excluded fuel volumePath spec data st
    = Done (Some (Errorf "Invalid write target specified" []))
        {| fs := fs st;
           tr := Tar.NewReader data;
           log := log st ++ [Debugf "Bad target path in FilterSpec (%#v)" []] |}.
Proof.
  intros HR. unfold Import, unpackUsingTarget, bind. simpl.
  rewrite bool_decide_eq_true_2 by exact HR. reflexivity.
Qed.

(** C10: when the destination does not exist and opening it for write
    fails, createRegularFile returns nil; nothing is written to the file and
    nothing is read from the tar entry. *)
Theorem C10_open_failure_returns_nil (path : string) (perm : Os.FileMode)
    (st : SinkState T) (e e' : error) (fs' : T) :
  Lookup (fs st) path = Fail e ->
  IsNotExist (Some e) = true ->
  OpenFile (fs st) path perm = (fs', Some e') ->
  createRegularFile path perm st
    = Done None {| fs := fs'; tr := tr st; log := log st |}.
Proof.
  intros Hl Hne Ho. unfold createRegularFile, bind, lookup, onStore.
  rewrite Hl, Hne. simpl. rewrite Ho. reflexivity.
Qed.

(** C6, as the code has it: a symbolic-link entry that is not excluded is
    logged and then processed as the default case of the switch, the same as
    a regular file, at its write path. *)
Theorem C6_symlink_logged_then_default (fuel : nat)
    (spec : Archive.FilterSpec) (finalTargetPath : string)
    (header : Tar.Header) (st : SinkState T) :
  Tar.Typeflag header = Tar.TypeSymlink ->
  Excluded (Tar.Name header) spec = false ->
  unpackEntry Excluded fuel spec finalTargetPath header st
    = unpackRegular fuel
        (writePath finalTargetPath (Archive.StripPath spec) (Tar.Name header))
        header
        {| fs := fs st; tr := tr st;
           log := log st ++ [Infof
             "Found symlink target, nfs does not support nfs targets at this time (%s)"
             [Tar.FileInfoName header]] |}.
Proof.
  intros Hsym Hex. unfold unpackEntry. rewrite Hex, Hsym.
  rewrite bool_decide_eq_false_2 by discriminate.
  rewrite bool_decide_eq_true_2 by reflexivity.
  reflexivity.
Qed.

End SinkFacts.

(** ** Export *)

Section FindReadTarget.
Import Source.

Lemma findReadTarget_empty (spec : Archive.FilterSpec) :
  Archive.Inclusions spec = ∅ -> findReadTarget spec = "/".
Proof. intros Hempty. unfold findReadTarget. rewrite Hempty. reflexivity. Qed.

Lemma findReadTarget_least (spec : Archive.FilterSpec) :
  Archive.Inclusions spec <> ∅ ->
  findReadTarget spec ∈ Archive.Inclusions spec
  /\ forall p, p ∈ Archive.Inclusions spec ->
               String.le (findReadTarget spec) p.
Proof.
  intros Hne. unfold findReadTarget.
  destruct (decide (size (Archive.Inclusions spec) = 0)) as [Hz|Hnz].
  { apply size_empty_iff in Hz. apply leibniz_equiv in Hz. contradiction. }
  apply Nat.eqb_neq in Hnz. rewrite Hnz.
  pose proof (merge_sort_Permutation String.le
                (elements (Archive.Inclusions spec))) as Hperm.
  pose proof (StronglySorted_merge_sort String.le
                (elements (Archive.Inclusions spec))) as Hsorted.
  destruct (merge_sort String.le (elements (Archive.Inclusions spec)))
    as [|first others] eqn:Hms.
  - apply Permutation_nil_l in Hperm. symmetry in Hperm.
    apply elements_empty_inv in Hperm. apply leibniz_equiv in Hperm.
    contradiction.
  - simpl. split.
    + apply elem_of_elements. rewrite <- Hperm. left.
    + intros p Hp. apply elem_of_elements in Hp. rewrite <- Hperm in Hp.
      apply elem_of_cons in Hp as [->|Hp]; [reflexivity|].
      apply StronglySorted_inv in Hsorted as [_ Hall].
      rewrite Forall_forall in Hall. apply Hall. exact Hp.
Qed.

(** C3, as the code has it: the walk root is the least inclusion path in
    byte-wise lexicographic order when there are inclusions, and the root
    path "/" of the volume when there are none. *)
Theorem C3_read_target (spec : Archive.FilterSpec) :
  (Archive.Inclusions spec <> ∅ ->
     findReadTarget spec ∈ Archive.Inclusions spec
     /\ forall p, p ∈ Archive.Inclusions spec ->
                  String.le (findReadTarget spec) p)
  /\ (Archive.Inclusions spec = ∅ -> findReadTarget spec = "/").
Proof.
  split; [apply findReadTarget_least|apply findReadTarget_empty].
Qed.

End FindReadTarget.

Section SourceFacts.
Context {T W : Type} `{!Target T} `{!Encoder W}.
Variable Excluded : string -> Archive.FilterSpec -> bool.
Variable nfs : T.
Variable spec : Archive.FilterSpec.

Import Source.

Lemma readFile_readList (currentRead : string) (st : PackState W) :
  readList (readFile nfs currentRead st).2 = readList st.
Proof.
  unfold readFile. destruct (Open nfs currentRead) as [[f|]|e]; try reflexivity.
  destruct (copyToTar (tw st) f) as [w' [e|]]; reflexivity.
Qed.

Lemma readFile_err (currentRead : string) (st : PackState W) :
  err (readFile nfs currentRead st).2 = err st.
Proof.
  unfold readFile. destruct (Open nfs currentRead) as [[f|]|e]; try reflexivity.
  destruct (copyToTar (tw st) f) as [w' [e|]]; reflexivity.
Qed.

(** No turn of the loop assigns the [err] the deferred function reads. *)
Lemma packStep_err (st : PackState W) :
  match packStep Excluded nfs spec st with
  | Next st' | Return st' => err st' = err st
  end.
Proof.
  unfold packStep. destruct (readList st) as [|currentRead rest]; [reflexivity|].
  destruct (Excluded currentRead spec); [reflexivity|].
  destruct (Lookup nfs currentRead) as [info|e]; [|reflexivity].
  destruct (Tar.FileInfoHeader info "") as [hdr0|e]; [|reflexivity].
  destruct (if bool_decide (Tar.Typeflag hdr0 = Tar.TypeDir)
            then ReadDir nfs currentRead else Ok []) as [children|e];
    [|reflexivity].
  destruct (WriteHeader _ _) as [w' [e|]];
    destruct (_ && _); rewrite ?readFile_err; reflexivity.
Qed.

(** An entry that is looked up and written stays first in the work list. *)
Lemma packStep_keeps_first (st : PackState W) (currentRead : string)
    (rest : list string) (info : Os.FileInfo) (hdr : Tar.Header) :
  readList st = currentRead :: rest ->
  Excluded currentRead spec = false ->
  Lookup nfs currentRead = Ok info ->
  Tar.FileInfoHeader info "" = Ok hdr ->
  (Tar.Typeflag hdr = Tar.TypeDir ->
     exists children, ReadDir nfs currentRead = Ok children) ->
  exists st' rest',
    packStep Excluded nfs spec st = Next st'
    /\ readList st' = currentRead :: rest'.
Proof.
  intros Hl Hex Hlook Hhdr Hdir. unfold packStep.
  rewrite Hl, Hex, Hlook, Hhdr.
  case_bool_decide as Hd.
  - destruct (Hdir Hd) as [children Hch]. rewrite Hch.
    destruct (WriteHeader _ _) as [w' [e|]];
      destruct (_ && _); eexists; eexists (rest ++ _);
      (split; [reflexivity|]); rewrite ?readFile_readList; simpl;
      rewrite ?Hl; reflexivity.
  - destruct (WriteHeader _ _) as [w' [e|]];
      destruct (_ && _); eexists; eexists (rest ++ _);
      (split; [reflexivity|]); rewrite ?readFile_readList; simpl;
      rewrite ?Hl; reflexivity.
Qed.

(** So the loop does not end once such an entry is first in the list. *)
Lemma packLoop_stuck (fuel : nat) (st : PackState W) (currentRead : string)
    (rest : list string) (info : Os.FileInfo) (hdr : Tar.Header) :
  readList st = currentRead :: rest ->
  Excluded currentRead spec = false ->
  Lookup nfs currentRead = Ok info ->
  Tar.FileInfoHeader info "" = Ok hdr ->
  (Tar.Typeflag hdr = Tar.TypeDir ->
     exists children, ReadDir nfs currentRead = Ok children) ->
  packLoop Excluded nfs spec fuel st = None.
Proof.
  intros Hl Hex Hlook Hhdr Hdir. revert st rest Hl.
  induction fuel as [|fuel IH]; intros st rest Hl; [reflexivity|].
  simpl. rewrite Hl.
  destruct (packStep_keeps_first st currentRead rest info hdr
              Hl Hex Hlook Hhdr Hdir) as (st' & rest' & Hstep & Hl').
  rewrite Hstep. exact (IH st' rest' Hl').
Qed.

(** C4, as the code has it: an entry of the work list whose lookup fails,
    for whatever reason, is dropped from the list and the walk goes on;
    nothing is written, logged or recorded as an error. *)
Theorem C4_failed_lookup_skipped (st : PackState W) (currentRead : string)
    (rest : list string) (e : error) :
  readList st = currentRead :: rest ->
  Excluded currentRead spec = false ->
  Lookup nfs currentRead = Fail e ->
  packStep Excluded nfs spec st
    = Next {| readList := rest; tw := tw st; err := err st; log := log st |}.
Proof.
  intros Hl Hex Hlook. unfold packStep. rewrite Hl, Hex, Hlook.
  unfold dropFirst, setReadList. rewrite Hl. reflexivity.
Qed.

(** A permission error on open leaves the entry with its header only, and
    the walk goes on. *)
Lemma packStep_permission_denied (st : PackState W) (currentRead : string)
    (rest : list string) (info : Os.FileInfo) (hdr : Tar.Header) (w' : W) :
  readList st = currentRead :: rest ->
  Excluded currentRead spec = false ->
  Lookup nfs currentRead = Ok info ->
  Tar.FileInfoHeader info "" = Ok hdr ->
  Tar.Typeflag hdr = Tar.TypeReg ->
  Tar.Size hdr <> 0%Z ->
  WriteHeader (tw st) hdr = (w', None) ->
  Open nfs currentRead = Fail ErrPermission ->
  packStep Excluded nfs spec st
    = Next {| readList := currentRead :: rest; tw := w'; err := err st;
              log := log st |}.
Proof.
  intros Hl Hex Hlook Hhdr Hreg Hsize Hw Hopen. unfold packStep.
  rewrite Hl, Hex, Hlook, Hhdr, Hreg.
  rewrite bool_decide_eq_false_2 by discriminate.
  simpl. rewrite app_nil_r. rewrite Hw. simpl. rewrite Hreg.
  rewrite bool_decide_eq_true_2 by reflexivity.
  apply Z.eqb_neq in Hsize. rewrite Hsize. simpl.
  unfold readFile. rewrite Hopen. reflexivity.
Qed.

End SourceFacts.

(** ** The pipelines on concrete volumes and streams *)

Section Runs.
Import Mem Cases.

Lemma everything_keeps_vol : Archive.Excluded "/vol" everything = false.
Proof. vm_compute. reflexivity. Qed.

Lemma onlyF_keeps_f : Archive.Excluded "/vol/f" onlyF = false.
Proof. vm_compute. reflexivity. Qed.

Lemma read_path_everything :
  Path.Join "/vol" (Source.findReadTarget everything) = "/vol".
Proof. vm_compute. reflexivity. Qed.

Lemma read_path_onlyF :
  Path.Join "/vol" (Source.findReadTarget onlyF) = "/vol/f".
Proof. vm_compute. reflexivity. Qed.

Lemma volA_step (w : list Written) (l : list string) :
  Source.packStep Archive.Excluded volA everything (start w ("/vol" :: l))
    = Source.Next (start (w ++ [RHeader volHeader]) ("/vol" :: l ++ ["a"])).
Proof.
  unfold Source.packStep, start. cbn [Source.readList].
  rewrite everything_keeps_vol.
  replace (Lookup volA "/vol")
    with (Ok {| Os.Name := "vol"; Os.Size := 0%Z; Os.Mode := dirMode |})
    by (vm_compute; reflexivity).
  replace (ReadDir volA "/vol")
    with (Ok [{| Os.Name := "a"; Os.Size := 3%Z; Os.Mode := fileMode |}])
    by (vm_compute; reflexivity).
  reflexivity.
Qed.

Lemma volA_turns (n : nat) (w : list Written) (l : list string) :
  turns Archive.Excluded volA everything n (start w ("/vol" :: l))
    = start (w ++ replicate n (RHeader volHeader))
            ("/vol" :: l ++ replicate n "a").
Proof.
  revert w l. induction n as [|n IH]; intros w l.
  - simpl. rewrite !app_nil_r. reflexivity.
  - cbn [turns]. unfold start at 1. cbn [Source.readList].
    fold (start w ("/vol" :: l)). rewrite volA_step, IH.
    rewrite <- !app_assoc. reflexivity.
Qed.

Lemma unreadable_step (w : list Written) (l : list string) :
  Source.packStep Archive.Excluded unreadable onlyF (start w ("/vol/f" :: l))
    = Source.Next (start (w ++ [RHeader fHeader]) ("/vol/f" :: l)).
Proof.
  unfold Source.packStep, start. cbn [Source.readList].
  rewrite onlyF_keeps_f.
  replace (Lookup unreadable "/vol/f")
    with (Ok {| Os.Name := "f"; Os.Size := 3%Z; Os.Mode := fileMode |})
    by (vm_compute; reflexivity).
  change (Tar.FileInfoHeader
            {| Os.Name := "f"; Os.Size := 3%Z; Os.Mode := fileMode |} "")
    with (Ok fHeader).
  cbv iota.
  change (bool_decide (Tar.Typeflag fHeader = Tar.TypeDir)) with false.
  cbv iota zeta.
  unfold Source.setReadList, Source.setTw.
  cbn [Source.tw Source.readList Source.err Source.log WriteHeader Recorder
       fmap list_fmap].
  change (bool_decide (Tar.Typeflag fHeader = Tar.TypeReg)
          && negb (Tar.Size fHeader =? 0)%Z) with true.
  cbv iota. unfold Source.readFile.
  replace (Open unreadable "/vol/f")
    with (@Fail (option Os.File) (Backend "input/output error"))
    by (vm_compute; reflexivity).
  cbn [IsPermission snd]. rewrite app_nil_r. reflexivity.
Qed.

(** C1: on an empty volume the producer task never ends, so the write end
    of the pipe is never closed; and when the walk does end on a fatal
    error (the volume root cannot be listed), the pipe is closed with nil,
    not with that error. *)
Theorem C1_producer_neither_ends_nor_reports :
  (forall fuel,
     Source.packUsingTarget Archive.Excluded emptyVol everything fuel "/vol"
       ([] : list Written) = None)
  /\ ReadDir unlistable "/vol" = Fail (Backend "input/output error")
  /\ Source.packUsingTarget Archive.Excluded unlistable everything 1 "/vol"
       ([] : list Written)
     = Some {| Source.encoder := [RTrailer];
               Source.closes := [None];
               Source.oplog :=
                 [Debugf "Unable to read directory (%s) : %s"
                         ["/vol"; "input/output error"]] |}.
Proof.
  split; [|split; vm_compute; reflexivity].
  intros fuel. unfold Source.packUsingTarget.
  rewrite read_path_everything.
  erewrite packLoop_stuck with
    (currentRead := "/vol") (rest := [])
    (info := {| Os.Name := "vol"; Os.Size := 0%Z; Os.Mode := dirMode |})
    (hdr := {| Tar.Name := "vol/"; Tar.Typeflag := Tar.TypeDir;
               Tar.Mode := 493%Z; Tar.Size := 0%Z; Tar.Linkname := "" |}).
  - reflexivity.
  - reflexivity.
  - apply everything_keeps_vol.
  - vm_compute. reflexivity.
  - vm_compute. reflexivity.
  - intros _. exists []. vm_compute. reflexivity.
Qed.

(** C2: on a volume with the single file [/vol/a], after any number of
    turns of the loop the work list is the volume root followed by the base
    name ["a"] once per turn, and the only headers written are those of the
    root: the child is enqueued by base name, and [/vol/a] is never looked
    up or written. *)
Theorem C2_children_enqueued_by_base_name (n : nat) :
  turns Archive.Excluded volA everything n (start [] ["/vol"])
    = {| Source.readList := "/vol" :: replicate n "a";
         Source.tw := replicate n (RHeader volHeader);
         Source.err := None;
         Source.log := [] |}.
Proof. rewrite volA_turns. reflexivity. Qed.

(** C5: opening [/vol/f] fails with an input/output error, not a
    permission error; the turn of the loop ends with the header written and
    without a return, and the producer task never closes the pipe with that
    error. *)
Theorem C5_open_error_not_fatal :
  Open unreadable "/vol/f" = Fail (Backend "input/output error")
  /\ IsPermission (Some (Backend "input/output error")) = false
  /\ (forall (w : list Written) (l : list string),
        Source.packStep Archive.Excluded unreadable onlyF
          (start w ("/vol/f" :: l))
        = Source.Next (start (w ++ [RHeader fHeader]) ("/vol/f" :: l)))
  /\ (forall fuel,
        Source.packUsingTarget Archive.Excluded unreadable onlyF fuel "/vol"
          ([] : list Written) = None).
Proof.
  split; [vm_compute; reflexivity|].
  split; [reflexivity|].
  split; [apply unreadable_step|].
  intros fuel. unfold Source.packUsingTarget.
  rewrite read_path_onlyF.
  erewrite packLoop_stuck with
    (currentRead := "/vol/f") (rest := [])
    (info := {| Os.Name := "f"; Os.Size := 3%Z; Os.Mode := fileMode |})
    (hdr := fHeader).
  - reflexivity.
  - reflexivity.
  - apply onlyF_keeps_f.
  - vm_compute. reflexivity.
  - vm_compute. reflexivity.
  - intros Hdir. vm_compute in Hdir. discriminate Hdir.
Qed.


(** C3 fails as stated: with target [/data] and no inclusions the walk
    root is ["/"], not the target path. *)
Lemma C3_target_path_not_used :
  Archive.Inclusions dataOnly = ∅
  /\ Source.findReadTarget dataOnly = "/"
  /\ Source.findReadTarget dataOnly <> Archive.TargetPath dataOnly.
Proof.
  split; [reflexivity|]. split; [reflexivity|].
  rewrite findReadTarget_empty by reflexivity. discriminate.
Qed.

Lemma C3_read_target_witness :
  Archive.Inclusions threeInclusions <> ∅
  /\ Archive.Inclusions everything = ∅
  /\ (Source.findReadTarget threeInclusions
         ∈ Archive.Inclusions threeInclusions
      /\ forall p, p ∈ Archive.Inclusions threeInclusions ->
                   String.le (Source.findReadTarget threeInclusions) p)
  /\ Source.findReadTarget everything = "/".
Proof.
  assert (H1 : Archive.Inclusions threeInclusions <> ∅).
  { intros Hempty. apply (f_equal size) in Hempty.
    vm_compute in Hempty. discriminate Hempty. }
  assert (H2 : Archive.Inclusions everything = ∅) by reflexivity.
  split; [exact H1|]. split; [exact H2|].
  split.
  - exact (proj1 (C3_read_target threeInclusions) H1).
  - exact (proj2 (C3_read_target everything) H2).
Defined.

Example findReadTarget_three :
  Source.findReadTarget threeInclusions = "/a".
Proof. vm_compute. reflexivity. Qed.

(** C4 fails as stated: the lookup of the walk root fails with a stale
    handle, which is not a not-found error; the export ends with a clean
    close of the pipe, without that error. *)
Lemma C4_other_lookup_failure_not_fatal :
  Lookup stale "/vol" = Fail (Backend "stale NFS file handle")
  /\ IsNotExist (Some (Backend "stale NFS file handle")) = false
  /\ Source.packUsingTarget Archive.Excluded stale everything 2 "/vol"
       ([] : list Written)
     = Some {| Source.encoder := [RTrailer];
               Source.closes := [None];
               Source.oplog :=
                 [Errorf_log "Lookup of target (%s) returned an error"
                             ["/vol"]] |}.
Proof.
  split; [vm_compute; reflexivity|]. split; vm_compute; reflexivity.
Qed.

Lemma C4_failed_lookup_skipped_witness :
  Source.readList (start ([] : list Written) ["/vol"; "/vol/a"])
    = "/vol" :: ["/vol/a"]
  /\ Archive.Excluded "/vol" everything = false
  /\ Lookup stale "/vol" = Fail (Backend "stale NFS file handle")
  /\ Source.packStep Archive.Excluded stale everything
       (start ([] : list Written) ["/vol"; "/vol/a"])
     = Source.Next {| Source.readList := ["/vol/a"]; Source.tw := [];
                      Source.err := None; Source.log := [] |}.
Proof.
  assert (H1 : Source.readList (start ([] : list Written) ["/vol"; "/vol/a"])
               = "/vol" :: ["/vol/a"]) by reflexivity.
  assert (H2 : Archive.Excluded "/vol" everything = false)
    by (vm_compute; reflexivity).
  assert (H3 : Lookup stale "/vol" = Fail (Backend "stale NFS file handle"))
    by (vm_compute; reflexivity).
  split; [exact H1|]. split; [exact H2|]. split; [exact H3|].
  exact (C4_failed_lookup_skipped Archive.Excluded stale everything
           (start [] ["/vol"; "/vol/a"]) "/vol" ["/vol/a"]
           (Backend "stale NFS file handle") H1 H2 H3).
Defined.

(** C6 fails as stated: an import of a stream with one symbolic-link entry
    returns an error. *)
Lemma C6_symlink_entry_aborts_import :
  returned (Sink.Import Archive.Excluded 1 "/vol" everything
              [Tar.Entry linkEntry []] (sink emptyVol (Tar.NewReader [])))
    = Some (Some (Errorf "caller supplied non dir based file mode" [])).
Proof. vm_compute. reflexivity. Qed.

Lemma C6_symlink_logged_then_default_witness :
  Tar.Typeflag linkEntry = Tar.TypeSymlink
  /\ Archive.Excluded (Tar.Name linkEntry) everything = false
  /\ Sink.unpackEntry Archive.Excluded 1 everything "/vol" linkEntry
       (sink emptyVol (Tar.NewReader []))
     = Sink.unpackRegular 1
         (Sink.writePath "/vol" (Archive.StripPath everything)
                         (Tar.Name linkEntry))
         linkEntry
         {| Sink.fs := emptyVol; Sink.tr := Tar.NewReader [];
            Sink.log := [] ++ [Infof
              "Found symlink target, nfs does not support nfs targets at this time (%s)"
              [Tar.FileInfoName linkEntry]] |}.
Proof.
  assert (H1 : Tar.Typeflag linkEntry = Tar.TypeSymlink) by reflexivity.
  assert (H2 : Archive.Excluded (Tar.Name linkEntry) everything = false)
    by (vm_compute; reflexivity).
  split; [exact H1|]. split; [exact H2|].
  exact (C6_symlink_logged_then_default Archive.Excluded 1 everything "/vol"
           linkEntry (sink emptyVol (Tar.NewReader [])) H1 H2).
Defined.

Lemma C8_write_path_witness :
  Archive.RebasePath stripRebase <> ""
  /\ Tar.Name srcEntry = Archive.StripPath stripRebase +:+ "/" +:+ "etc/hosts"
  /\ Archive.Excluded (Tar.Name srcEntry) stripRebase = false
  /\ Sink.writePath (Path.Join "/vol" "/data/target") "/src" "/src/etc/hosts"
     = "/vol/data/target/etc/hosts"
  /\ Sink.unpackEntry (T := Store) Archive.Excluded 1 stripRebase
       "/vol/data/target" srcEntry
     = Sink.unpackRegular 1 "/vol/data/target/etc/hosts" srcEntry.
Proof.
  assert (H1 : Archive.RebasePath stripRebase <> "") by discriminate.
  assert (H2 : Tar.Name srcEntry
               = Archive.StripPath stripRebase +:+ "/" +:+ "etc/hosts")
    by reflexivity.
  assert (H3 : Archive.Excluded (Tar.Name srcEntry) stripRebase = false)
    by (vm_compute; reflexivity).
  split; [exact H1|]. split; [exact H2|]. split; [exact H3|].
  exact (C8_write_path_strip_then_rebase (T := Store) Archive.Excluded 1
           stripRebase "/vol" "etc/hosts" srcEntry H1 H2 H3).
Defined.

Lemma C9_empty_rebase_witness :
  Archive.RebasePath noRebase = ""
  /\ Sink.Import Archive.Excluded 3 "/vol" noRebase
       [Tar.Entry srcEntry (bytes "abc")] (sink emptyVol (Tar.NewReader []))
     = Sink.Done (Some (Errorf "Invalid write target specified" []))
         {| Sink.fs := emptyVol;
            Sink.tr := Tar.NewReader [Tar.Entry srcEntry (bytes "abc")];
            Sink.log := [] ++ [Debugf "Bad target path in FilterSpec (%#v)" []] |}.
Proof.
  split; [reflexivity|].
  exact (C9_empty_rebase_rejected Archive.Excluded 3 "/vol" noRebase
           [Tar.Entry srcEntry (bytes "abc")]
           (sink emptyVol (Tar.NewReader [])) eq_refl).
Defined.

Lemma C10_open_failure_witness :
  Lookup readOnly "/vol/new" = Fail ErrNotExist
  /\ IsNotExist (Some ErrNotExist) = true
  /\ OpenFile readOnly "/vol/new" fileMode
     = (readOnly, Some (Backend "read-only file system"))
  /\ Sink.createRegularFile "/vol/new" fileMode (sink readOnly (atData "new"))
     = Sink.Done None (sink readOnly (atData "new")).
Proof.
  assert (H1 : Lookup readOnly "/vol/new" = Fail ErrNotExist)
    by (vm_compute; reflexivity).
  assert (H3 : OpenFile readOnly "/vol/new" fileMode
               = (readOnly, Some (Backend "read-only file system")))
    by (vm_compute; reflexivity).
  split; [exact H1|]. split; [reflexivity|]. split; [exact H3|].
  exact (C10_open_failure_returns_nil "/vol/new" fileMode
           (sink readOnly (atData "new")) ErrNotExist
           (Backend "read-only file system") readOnly H1 eq_refl H3).
Defined.

End Runs.

(** ** Import: what [mkdirAll] and the loop of the import do to the store *)

Section SinkStore.
Context {T : Type} `{!Target T}.
Variable Excluded : string -> Archive.FilterSpec -> bool.

Import Sink.

Lemma collectMissing_result (fuel : nat) (path currentPath : string)
    (dirsToCreate : list string) (st : SinkState T) :
  dirsToCreate <> [] ->
  match collectMissing fuel path currentPath dirsToCreate st with
  | Done (Ok dirs) st' => st' = st /\ dirs <> []
  | Done (Fail _) st' => st' = st
  | Panic _ _ => False
  | Diverge => True
  end.
Proof.
  revert dirsToCreate. induction fuel as [|fuel IH]; intros dirs Hne; simpl.
  - exact I.
  - case_bool_decide; [simpl; auto|].
    unfold bind, lookup. destruct (Lookup (fs st) currentPath) as [info|e].
    + destruct (negb (Os.IsDir (Os.Mode info))); simpl; auto.
    + destruct (Path.Split currentPath) as [cp dirToAdd].
      destruct e; cbn [IsNotExist]; cbv iota; try (simpl; auto; fail).
      apply IH. discriminate.
Qed.

Lemma createMissing_nil_info (currentPath : string)
    (dirsToCreate : list string) (st : SinkState T) :
  dirsToCreate <> [] ->
  createMissing None currentPath dirsToCreate st
    = Panic "invalid memory address or nil pointer dereference" st.
Proof. destruct dirsToCreate; [contradiction|reflexivity]. Qed.

(** X1: mkdirAll never creates a directory.  Whatever the path, the mode and
    the store, when it returns or panics the store, the tar reader and the
    log are what they were. *)
Theorem mkdirAll_changes_nothing (fuel : nat) (path : string)
    (mode : Os.FileMode) (st : SinkState T) :
  match mkdirAll fuel path mode st with
  | Done _ st' | Panic _ st' => st' = st
  | Diverge => True
  end.
Proof.
  unfold mkdirAll. destruct (Path.Split path) as [parent dirName].
  destruct (negb (Os.IsDir mode)); [reflexivity|].
  unfold bind, lookup. destruct (Lookup (fs st) path) as [info|e].
  - destruct (negb (Os.IsDir (Os.Mode info))); reflexivity.
  - pose proof (collectMissing_result fuel path parent [dirName] st) as Hc.
    destruct (collectMissing fuel path parent [dirName] st)
      as [[dirs|e'] st'| |]; try exact I.
    + destruct Hc as [-> Hne]; [discriminate|].
      rewrite createMissing_nil_info by exact Hne. reflexivity.
    + apply Hc. discriminate.
    + exfalso. apply Hc. discriminate.
Qed.

(** X2: mkdirAll returns nil only when it is given a directory mode and the
    path already exists as a directory. *)
Theorem mkdirAll_nil_only_for_existing_directory (fuel : nat) (path : string)
    (mode : Os.FileMode) (st st' : SinkState T) :
  mkdirAll fuel path mode st = Done None st' ->
  Os.IsDir mode = true
  /\ exists info, Lookup (fs st) path = Ok info
                  /\ Os.IsDir (Os.Mode info) = true.
Proof.
  unfold mkdirAll. destruct (Path.Split path) as [parent dirName].
  destruct (Os.IsDir mode); simpl; [|discriminate].
  unfold bind, lookup. destruct (Lookup (fs st) path) as [info|e].
  - destruct (Os.IsDir (Os.Mode info)) eqn:Hd; simpl; [|discriminate].
    intros _. split; [reflexivity|]. exists info. split; [reflexivity|exact Hd].
  - pose proof (collectMissing_result fuel path parent [dirName] st) as Hc.
    destruct (collectMissing fuel path parent [dirName] st)
      as [[dirs|e'] st1| |]; try discriminate.
    destruct Hc as [-> Hne]; [discriminate|].
    rewrite createMissing_nil_info by exact Hne. discriminate.
Qed.

(** X3: when the path is missing and the lookup of its parent fails with a
    not-exist error, the loop that collects the missing directories never
    ends: it tests the same parent on every turn. *)
Theorem mkdirAll_missing_parent_never_returns (fuel : nat)
    (path parent dirName : string) (mode : Os.FileMode) (st : SinkState T)
    (e : error) :
  Os.IsDir mode = true ->
  Path.Split path = (parent, dirName) ->
  Lookup (fs st) path = Fail e ->
  parent <> "/" ->
  Lookup (fs st) parent = Fail ErrNotExist ->
  mkdirAll fuel path mode st = Diverge.
Proof.
  intros Hmode Hsplit Hpath Hroot Hparent. unfold mkdirAll.
  rewrite Hsplit, Hmode. simpl. unfold bind, lookup. rewrite Hpath.
  assert (Hloop : forall n dirs,
            collectMissing n path parent dirs st = Diverge).
  { induction n as [|n IH]; intros dirs; simpl; [reflexivity|].
    rewrite bool_decide_eq_false_2 by exact Hroot.
    unfold bind, lookup. rewrite Hparent.
    destruct (Path.Split parent) as [cp dirToAdd]. simpl. apply IH. }
  rewrite Hloop. reflexivity.
Qed.

(** X4: when the path is missing and its parent is the root or an existing
    directory, mkdirAll panics on the nil file info before any Mkdir. *)
Theorem mkdirAll_missing_leaf_panics (fuel : nat)
    (path parent dirName : string) (mode : Os.FileMode) (st : SinkState T)
    (e : error) :
  Os.IsDir mode = true ->
  Path.Split path = (parent, dirName) ->
  Lookup (fs st) path = Fail e ->
  (parent = "/"
   \/ exists info, Lookup (fs st) parent = Ok info
                   /\ Os.IsDir (Os.Mode info) = true) ->
  mkdirAll (S fuel) path mode st
    = Panic "invalid memory address or nil pointer dereference" st.
Proof.
  intros Hmode Hsplit Hpath Hparent. unfold mkdirAll.
  rewrite Hsplit, Hmode. change (negb true) with false. cbv beta iota.
  unfold bind, lookup. rewrite Hpath.
  assert (Hbreak : collectMissing (S fuel) path parent [dirName] st
                   = Done (Ok [dirName]) st).
  { simpl. case_bool_decide as Hroot; [reflexivity|].
    destruct Hparent as [Heq|(info & Hl & Hd)]; [contradiction|].
    unfold bind, lookup. rewrite Hl, Hd. reflexivity. }
  rewrite Hbreak. reflexivity.
Qed.

(** A regular file is never written by [unpackRegular]: [mkdirAll] lets it
    through only on an existing directory, which [createRegularFile]
    refuses. *)
Lemma unpackRegular_result (fuel : nat) (path : string) (header : Tar.Header)
    (st : SinkState T) :
  match unpackRegular fuel path header st with
  | Done r st' => st' = st /\ r <> None
  | Panic _ st' => st' = st
  | Diverge => True
  end.
Proof.
  unfold unpackRegular, bind.
  pose proof (mkdirAll_changes_nothing fuel path (Tar.FileInfoMode header) st)
    as Hsame.
  destruct (mkdirAll fuel path (Tar.FileInfoMode header) st)
    as [[e|] st1| |] eqn:Hmk; try exact Hsame.
  - subst st1. split; [reflexivity|discriminate].
  - subst st1.
    apply mkdirAll_nil_only_for_existing_directory in Hmk
      as (_ & info & Hl & Hd).
    rewrite (createRegularFile_directory path _ st info Hl Hd).
    split; [reflexivity|discriminate].
Qed.

(** X5: the default case of the import never succeeds.  For an entry that is
    not a directory entry, [unpackRegular] returns an error, panics or does
    not return; it never returns nil, and it leaves the store, the reader and
    the log as they were. *)
Theorem unpackRegular_never_succeeds (fuel : nat) (path : string)
    (header : Tar.Header) (st : SinkState T) :
  match unpackRegular fuel path header st with
  | Done r st' => st' = st /\ is_Some r
  | Panic _ st' => st' = st
  | Diverge => True
  end.
Proof.
  pose proof (unpackRegular_result fuel path header st) as Hr.
  destruct (unpackRegular fuel path header st) as [[e|] st'| |];
    try exact Hr.
  - destruct Hr as [-> _]. split; [reflexivity|]. exists e. reflexivity.
  - destruct Hr as [_ Hne]. contradiction.
Qed.

Lemma unpackEntry_store (fuel : nat) (spec : Archive.FilterSpec)
    (finalTargetPath : string) (header : Tar.Header) (st : SinkState T) :
  match unpackEntry Excluded fuel spec finalTargetPath header st with
  | Done _ st' | Panic _ st' => fs st' = fs st /\ tr st' = tr st
  | Diverge => True
  end.
Proof.
  unfold unpackEntry. destruct (Excluded (Tar.Name header) spec); [split; reflexivity|].
  case_bool_decide.
  - pose proof (mkdirAll_changes_nothing fuel
                  (writePath finalTargetPath (Archive.StripPath spec)
                             (Tar.Name header))
                  (Tar.FileInfoMode header) st) as Hm.
    destruct (mkdirAll _ _ _ st); try exact I; subst; split; reflexivity.
  - case_bool_decide.
    + unfold bind, logf.
      match goal with
      | |- context [unpackRegular ?f ?p ?h ?s] =>
          pose proof (unpackRegular_result f p h s) as Hr;
          destruct (unpackRegular f p h s)
      end; try exact I.
      * destruct Hr as [-> _]. split; reflexivity.
      * subst. split; reflexivity.
    + match goal with
      | |- context [unpackRegular ?f ?p ?h ?s] =>
          pose proof (unpackRegular_result f p h s) as Hr;
          destruct (unpackRegular f p h s)
      end; try exact I.
      * destruct Hr as [-> _]. split; reflexivity.
      * subst. split; reflexivity.
Qed.

Lemma unpackLoop_store (fuel n : nat) (spec : Archive.FilterSpec)
    (finalTargetPath : string) (st : SinkState T) :
  match unpackLoop Excluded fuel n spec finalTargetPath st with
  | Done _ st' | Panic _ st' => fs st' = fs st
  | Diverge => True
  end.
Proof.
  revert st. induction n as [|n IH]; intros st; simpl; [exact I|].
  unfold bind at 1, next. destruct (Next (tr st)) as [r [header|e]].
  - unfold bind at 1.
    match goal with
    | |- context [unpackEntry _ ?f ?sp ?p ?h ?s] =>
        pose proof (unpackEntry_store f sp p h s) as He;
        destruct (unpackEntry Excluded f sp p h s) as [[e|] st1|msg st1|]
    end; try exact I.
    + simpl. destruct He as [He _]. exact He.
    + specialize (IH st1).
      destruct (unpackLoop Excluded fuel n spec finalTargetPath st1);
        try exact I; destruct He as [He _]; simpl in He; congruence.
    + destruct He as [He _]. exact He.
  - destruct e; reflexivity.
Qed.

(** X6: an import never changes the backend store.  Whatever the filter
    specification, the stream and the store, when [unpackUsingTarget] returns
    or panics the store is the one it started with. *)
Theorem unpackUsingTarget_never_writes (fuel : nat)
    (spec : Archive.FilterSpec) (tarStream : list Tar.Item)
    (volumePath : string) (st : SinkState T) :
  match unpackUsingTarget Excluded fuel spec tarStream volumePath st with
  | Done _ st' | Panic _ st' => fs st' = fs st
  | Diverge => True
  end.
Proof.
  unfold unpackUsingTarget. unfold bind at 1.
  case_bool_decide; [reflexivity|].
  unfold bind at 1.
  set (st1 := {| fs := fs st; tr := Tar.NewReader tarStream; log := log st |}).
  assert (Hstrip : exists st2,
            (if bool_decide (Archive.StripPath spec = "")
             then logf (Debugf "Strip path was set to empty" [])
             else ret tt) st1 = Done tt st2 /\ fs st2 = fs st).
  { case_bool_decide; eexists; (split; [reflexivity|reflexivity]). }
  destruct Hstrip as (st2 & -> & Hfs2).
  unfold bind at 1, lookup. destruct (Lookup (fs st2) volumePath) as [info|e].
  - unfold bind at 1, logf.
    match goal with
    | |- context [unpackLoop _ ?f ?n ?sp ?p ?s] =>
        pose proof (unpackLoop_store f n sp p s) as Hl;
        destruct (unpackLoop Excluded f n sp p s)
    end; try exact I; simpl in Hl; congruence.
  - simpl. exact Hfs2.
Qed.

End SinkStore.

(** ** Import: the loop over the stream *)

Section SinkStream.
Context {T : Type} `{!Target T}.
Variable Excluded : string -> Archive.FilterSpec -> bool.

Import Sink.

Lemma unpackLoop_skips (fuel n : nat) (spec : Archive.FilterSpec)
    (finalTargetPath : string) (pre rest : list Tar.Item) :
  Forall (skipped Excluded spec) pre ->
  forall (store : T) (rem : list Byte.byte) (lg : list LogLine),
  exists rem',
    unpackLoop Excluded fuel (length pre + n) spec finalTargetPath
      {| fs := store; tr := {| Tar.remaining := rem; Tar.items := pre ++ rest |};
         log := lg |}
    = unpackLoop Excluded fuel n spec finalTargetPath
        {| fs := store; tr := {| Tar.remaining := rem'; Tar.items := rest |};
           log := lg |}.
Proof.
  induction 1 as [|item pre Hitem _ IH]; intros store rem lg.
  - exists rem. reflexivity.
  - destruct item as [h data|e]; [|contradiction]. simpl in Hitem.
    destruct (IH store data lg) as [rem' Hrem']. exists rem'.
    rewrite <- Hrem'. simpl. unfold bind, next. simpl.
    unfold unpackEntry. rewrite Hitem. reflexivity.
Qed.

Lemma unpackUsingTarget_enters_loop (fuel : nat) (spec : Archive.FilterSpec)
    (tarStream : list Tar.Item) (volumePath : string) (st : SinkState T)
    (info : Os.FileInfo) :
  Archive.RebasePath spec <> "" ->
  Lookup (fs st) volumePath = Ok info ->
  unpackUsingTarget Excluded fuel spec tarStream volumePath st
    = unpackLoop Excluded fuel fuel spec
        (Path.Join volumePath (Archive.RebasePath spec))
        {| fs := fs st; tr := Tar.NewReader tarStream;
           log := log st ++ preamble spec volumePath |}.
Proof.
  intros HR Hl. unfold unpackUsingTarget, preamble.
  rewrite (bool_decide_eq_false_2 _ HR).
  case_bool_decide; unfold bind, lookup, logf, ret; simpl; rewrite Hl;
    simpl; rewrite <- ?app_assoc; reflexivity.
Qed.

(** X7: a stream in which every entry is excluded is read to its end and
    the import returns nil; the store is not touched. *)
Theorem unpackUsingTarget_all_excluded (fuel : nat)
    (spec : Archive.FilterSpec) (tarStream : list Tar.Item)
    (volumePath : string) (st : SinkState T) (info : Os.FileInfo) :
  Archive.RebasePath spec <> "" ->
  Lookup (fs st) volumePath = Ok info ->
  Forall (skipped Excluded spec) tarStream ->
  length tarStream < fuel ->
  unpackUsingTarget Excluded fuel spec tarStream volumePath st
    = Done None {| fs := fs st;
                   tr := {| Tar.remaining := []; Tar.items := [] |};
                   log := log st ++ preamble spec volumePath |}.
Proof.
  intros HR Hl Hall Hfuel.
  rewrite (unpackUsingTarget_enters_loop fuel spec tarStream volumePath st
             info HR Hl).
  replace fuel with (length tarStream + S (fuel - S (length tarStream))) at 2
    by lia.
  unfold Tar.NewReader.
  destruct (unpackLoop_skips fuel (S (fuel - S (length tarStream))) spec
              (Path.Join volumePath (Archive.RebasePath spec)) tarStream []
              Hall (fs st) [] (log st ++ preamble spec volumePath))
    as [rem' Hskip].
  rewrite app_nil_r in Hskip. rewrite Hskip. reflexivity.
Qed.

(** X8: when the stream cannot be decoded after a run of excluded entries,
    the import returns the decoding error and logs it; the items after the
    bad one are not read and the store is not touched. *)
Theorem unpackUsingTarget_corrupt_stream (fuel : nat)
    (spec : Archive.FilterSpec) (pre rest : list Tar.Item) (e : error)
    (volumePath : string) (st : SinkState T) (info : Os.FileInfo) :
  Archive.RebasePath spec <> "" ->
  Lookup (fs st) volumePath = Ok info ->
  Forall (skipped Excluded spec) pre ->
  e <> EOF ->
  length pre < fuel ->
  unpackUsingTarget Excluded fuel spec (pre ++ Tar.Corrupt e :: rest)
      volumePath st
    = Done (Some e)
        {| fs := fs st;
           tr := {| Tar.remaining := []; Tar.items := rest |};
           log := (log st ++ preamble spec volumePath)
                  ++ [Debugf
                        "Received error (%s) when attempting a tar read operation on target stream"
                        [errorText e]] |}.
Proof.
  intros HR Hl Hall He Hfuel.
  rewrite (unpackUsingTarget_enters_loop fuel spec _ volumePath st info HR Hl).
  replace fuel with (length pre + S (fuel - S (length pre))) at 2 by lia.
  unfold Tar.NewReader.
  destruct (unpackLoop_skips fuel (S (fuel - S (length pre))) spec
              (Path.Join volumePath (Archive.RebasePath spec)) pre
              (Tar.Corrupt e :: rest)
              Hall (fs st) [] (log st ++ preamble spec volumePath))
    as [rem' Hskip].
  rewrite Hskip. simpl. unfold bind, next. simpl.
  destruct e; try contradiction; reflexivity.
Qed.

(** X9: when the volume path cannot be looked up, the import returns the
    lookup error before any entry is read. *)
Theorem unpackUsingTarget_missing_volume (fuel : nat)
    (spec : Archive.FilterSpec) (tarStream : list Tar.Item)
    (volumePath : string) (st : SinkState T) (e : error) :
  Archive.RebasePath spec <> "" ->
  Lookup (fs st) volumePath = Fail e ->
  returned (unpackUsingTarget Excluded fuel spec tarStream volumePath st)
    = Some (Some e)
  /\ match unpackUsingTarget Excluded fuel spec tarStream volumePath st with
     | Done _ st' =>
         fs st' = fs st /\ tr st' = Tar.NewReader tarStream
     | _ => False
     end.
Proof.
  intros HR Hl. unfold unpackUsingTarget.
  rewrite (bool_decide_eq_false_2 _ HR).
  case_bool_decide; unfold bind, lookup, logf, ret; simpl; rewrite Hl;
    simpl; auto.
Qed.

End SinkStream.

(** ** Export: how the producer task ends *)

Section SourceEnds.
Context {T W : Type} `{!Target T} `{!Encoder W}.
Variable Excluded : string -> Archive.FilterSpec -> bool.
Variable nfs : T.
Variable spec : Archive.FilterSpec.

Import Source.

Lemma packLoop_err (fuel : nat) (st st' : PackState W) :
  packLoop Excluded nfs spec fuel st = Some st' -> err st' = err st.
Proof.
  revert st. induction fuel as [|fuel IH]; intros st; simpl; [discriminate|].
  destruct (readList st) as [|currentRead rest] eqn:Hl.
  - intros [= <-]. reflexivity.
  - pose proof (packStep_err Excluded nfs spec st) as Hstep.
    destruct (packStep Excluded nfs spec st) as [st1|st1].
    + intros Hloop. rewrite (IH st1 Hloop). exact Hstep.
    + intros [= <-]. exact Hstep.
Qed.

(** X10: whenever the producer task ends, the write end of the pipe is closed
    exactly once, and the error it is closed with is the one the tar
    encoder's own Close returned: no error met during the walk reaches the
    reader of the stream. *)
Theorem packUsingTarget_closes_with_encoder_error (fuel : nat)
    (dir : string) (w0 : W) (c : Closed W) :
  packUsingTarget Excluded nfs spec fuel dir w0 = Some c ->
  exists w : W,
    encoder c = (Close w).1
    /\ closes c = [(Close w).2]
    /\ terminal c = (Close w).2.
Proof.
  unfold packUsingTarget.
  destruct (packLoop Excluded nfs spec fuel _) as [st|] eqn:Hloop;
    [|discriminate].
  intros [= <-]. apply packLoop_err in Hloop. simpl in Hloop.
  exists (tw st). unfold deferred, terminal.
  destruct (Close (tw st)) as [w' cerr]. rewrite Hloop. simpl. auto.
Qed.

(** X11: when the read target is excluded or cannot be looked up, the walk
    ends after one turn with nothing written: the reader gets the stream of
    an encoder that was closed right after it was created. *)
Theorem packUsingTarget_root_skipped (fuel : nat) (dir : string) (w0 : W) :
  (Excluded (Path.Join dir (findReadTarget spec)) spec = true
   \/ exists e, Lookup nfs (Path.Join dir (findReadTarget spec)) = Fail e) ->
  exists c,
    packUsingTarget Excluded nfs spec (S (S fuel)) dir w0 = Some c
    /\ encoder c = (Close w0).1
    /\ closes c = [(Close w0).2].
Proof.
  intros Hskip. unfold packUsingTarget.
  set (readPath := Path.Join dir (findReadTarget spec)) in *.
  set (lg := match Lookup nfs readPath with
             | Ok _ => []
             | Fail _ => _
             end).
  assert (Hstep : packStep Excluded nfs spec
                    {| readList := [readPath]; tw := w0; err := None;
                       log := lg |}
                  = Next {| readList := []; tw := w0; err := None;
                            log := lg |}).
  { unfold packStep. cbn [readList].
    destruct (Excluded readPath spec) eqn:Hex; [reflexivity|].
    destruct Hskip as [Hex'|[e He]]; [discriminate|].
    rewrite He. reflexivity. }
  cbn [packLoop readList]. rewrite Hstep. cbn [packLoop readList fmap option_fmap option_map].
  eexists. split; [reflexivity|].
  unfold deferred. cbn [tw err log]. destruct (Close w0) as [w' cerr].
  split; reflexivity.
Qed.

(** X12: when the read target is not excluded, is found, has a mode tar can
    describe and, if it is a directory, can be listed, the producer task
    never ends: no amount of fuel makes it close the pipe. *)
Theorem packUsingTarget_never_ends (fuel : nat) (dir : string) (w0 : W)
    (info : Os.FileInfo) (hdr : Tar.Header) :
  Excluded (Path.Join dir (findReadTarget spec)) spec = false ->
  Lookup nfs (Path.Join dir (findReadTarget spec)) = Ok info ->
  Tar.FileInfoHeader info "" = Ok hdr ->
  (Tar.Typeflag hdr = Tar.TypeDir ->
     exists children,
       ReadDir nfs (Path.Join dir (findReadTarget spec)) = Ok children) ->
  packUsingTarget Excluded nfs spec fuel dir w0 = None.
Proof.
  intros Hex Hl Hh Hd. unfold packUsingTarget.
  erewrite packLoop_stuck; [reflexivity|reflexivity|exact Hex|exact Hl
                            |exact Hh|exact Hd].
Qed.

(** X13: a regular file that can be opened and read is written as its header
    followed by exactly its bytes, and the entry stays first in the work
    list. *)
Theorem packStep_copies_file (st : PackState W) (currentRead : string)
    (rest : list string) (info : Os.FileInfo) (hdr : Tar.Header)
    (f : Os.File) (w1 w2 : W) :
  readList st = currentRead :: rest ->
  Excluded currentRead spec = false ->
  Lookup nfs currentRead = Ok info ->
  Tar.FileInfoHeader info "" = Ok hdr ->
  Tar.Typeflag hdr = Tar.TypeReg ->
  Tar.Size hdr <> 0%Z ->
  WriteHeader (tw st) hdr = (w1, None) ->
  Open nfs currentRead = Ok (Some f) ->
  Os.fileErr f = None ->
  WriteData w1 (Os.fileData f) = (w2, None) ->
  packStep Excluded nfs spec st
    = Next {| readList := currentRead :: rest; tw := w2; err := err st;
              log := log st |}.
Proof.
  intros Hl Hex Hlook Hhdr Hreg Hsize Hw Hopen Hferr Hdata. unfold packStep.
  rewrite Hl, Hex, Hlook, Hhdr, Hreg.
  rewrite bool_decide_eq_false_2 by discriminate.
  simpl. rewrite app_nil_r. rewrite Hw. simpl. rewrite Hreg.
  rewrite bool_decide_eq_true_2 by reflexivity.
  apply Z.eqb_neq in Hsize. rewrite Hsize. simpl.
  unfold readFile, copyToTar. rewrite Hopen. simpl. rewrite Hdata, Hferr.
  reflexivity.
Qed.

(** X14: a regular file of size zero is written as its header only; it is
    not opened, whatever the backend would answer. *)
Theorem packStep_empty_file_not_opened (st : PackState W)
    (currentRead : string) (rest : list string) (info : Os.FileInfo)
    (hdr : Tar.Header) (w1 : W) :
  readList st = currentRead :: rest ->
  Excluded currentRead spec = false ->
  Lookup nfs currentRead = Ok info ->
  Tar.FileInfoHeader info "" = Ok hdr ->
  Tar.Typeflag hdr = Tar.TypeReg ->
  Tar.Size hdr = 0%Z ->
  WriteHeader (tw st) hdr = (w1, None) ->
  packStep Excluded nfs spec st
    = Next {| readList := currentRead :: rest; tw := w1; err := err st;
              log := log st |}.
Proof.
  intros Hl Hex Hlook Hhdr Hreg Hsize Hw. unfold packStep.
  rewrite Hl, Hex, Hlook, Hhdr, Hreg.
  rewrite bool_decide_eq_false_2 by discriminate.
  simpl. rewrite app_nil_r. rewrite Hw. simpl. rewrite Hreg, Hsize.
  rewrite bool_decide_eq_true_2 by reflexivity. reflexivity.
Qed.

(** X25: a permission error when a regular file is opened is not an error of
    the export: the header stays written, no data follows it, nothing is
    logged, and the walk goes on. *)
Theorem packStep_permission_header_only (st : PackState W)
    (currentRead : string) (rest : list string) (info : Os.FileInfo)
    (hdr : Tar.Header) (w' : W) :
  readList st = currentRead :: rest ->
  Excluded currentRead spec = false ->
  Lookup nfs currentRead = Ok info ->
  Tar.FileInfoHeader info "" = Ok hdr ->
  Tar.Typeflag hdr = Tar.TypeReg ->
  Tar.Size hdr <> 0%Z ->
  WriteHeader (tw st) hdr = (w', None) ->
  Open nfs currentRead = Fail ErrPermission ->
  packStep Excluded nfs spec st
    = Next {| readList := currentRead :: rest; tw := w'; err := err st;
              log := log st |}.
Proof. apply packStep_permission_denied. Qed.

End SourceEnds.

(** ** Import: a file that does not exist yet *)

Section SinkFresh.
Context {T : Type} `{!Target T}.

Import Sink.

(** X26: when nothing exists at the path, createRegularFile opens the file
    and writes to it exactly the bytes of the current tar entry that were not
    read yet; the reader has then no data left for the entry, and the result
    is the result of the write. *)
Theorem createRegularFile_writes_new_file (path : string)
    (perm : Os.FileMode) (st : SinkState T) (fs1 fs2 : T)
    (werr : option error) :
  Lookup (fs st) path = Fail ErrNotExist ->
  OpenFile (fs st) path perm = (fs1, None) ->
  Write fs1 path (Tar.remaining (tr st)) = (fs2, werr) ->
  createRegularFile path perm st
    = Done werr {| fs := fs2;
                   tr := {| Tar.remaining := [];
                            Tar.items := Tar.items (tr st) |};
                   log := log st |}.
Proof. apply createRegularFile_fresh. Qed.

End SinkFresh.

(** ** The key/value store backend *)

Section KVFacts.
Context {D : Type} `{!KV.Datastore D}.
Variable Error : error -> string.
Variable ToVimFault : error -> option KV.VimFault.
Variable retryDo :
  (D -> D * option error) -> (error -> bool) -> D -> D * option error.

Import KV.

(** X15: Load fails with an error that os.IsNotExist accepts exactly when the
    download failed with the text "404 Not Found" or with a not-exist error
    of its own. *)
Theorem Load_not_exist_iff (d : D) (path : string) :
  (exists e, Load Error d path = Fail e /\ IsNotExist (Some e) = true)
  <-> (exists e, Download d path = Fail e
                 /\ (Error e = "404 Not Found" \/ e = ErrNotExist)).
Proof.
  unfold Load, toOsError. destruct (Download d path) as [rc|e0].
  - split; intros (e & He & _); discriminate.
  - split.
    + intros (e & He & Hne). exists e0. split; [reflexivity|].
      injection He as <-. case_bool_decide as Htext; [left; exact Htext|].
      right. destruct e0; try discriminate. reflexivity.
    + intros (e & He & Hcase). injection He as <-.
      case_bool_decide as Htext.
      * exists ErrNotExist. split; reflexivity.
      * destruct Hcase as [Htext'|Heq]; [contradiction|]. subst e0.
        exists ErrNotExist. split; reflexivity.
Qed.

(** X16: toOsError changes nothing the second time, as the text of
    os.ErrNotExist is not "404 Not Found". *)
Theorem toOsError_idempotent (e : error) :
  Error ErrNotExist <> "404 Not Found" ->
  toOsError Error (toOsError Error e) = toOsError Error e.
Proof.
  intros Htext. unfold toOsError.
  destruct (decide (Error e = "404 Not Found")) as [He|He].
  - rewrite (bool_decide_eq_true_2 _ He).
    rewrite (bool_decide_eq_false_2 _ Htext). reflexivity.
  - rewrite !(bool_decide_eq_false_2 _ He). reflexivity.
Qed.

(** X17: Save uploads to the path with the suffix ".tmp" and moves the upload
    to the path; when that move fails with an error that is not a
    FileNotFound fault, Save returns the error after this one move, whatever
    the retry would do. *)
Theorem Save_move_error_not_retried (d d1 d2 : D) (r : list Byte.byte)
    (path : string) (e : error) :
  Upload d r (path +:+ ".tmp") = (d1, None) ->
  Mv d1 (path +:+ ".tmp") path = (d2, Some e) ->
  isFileFault ToVimFault e = false ->
  Save ToVimFault retryDo d r path = (d2, Some e).
Proof.
  intros Hup Hmv Hfault. unfold Save. rewrite Hup, Hmv, Hfault. reflexivity.
Qed.

End KVFacts.

(** ** Retrying tasks *)

Section TaskFacts.
Import Tasks.
Local Open Scope Z_scope.

Variable attempts : nat -> Attempt.
Variable selects : nat -> Select.
Variable rnd : nat -> Z.

Lemma WaitForResult_error_info (a : Attempt) (taskInfo : option TaskInfo)
    (err : TaskError) :
  WaitForResult a = Some (taskInfo, Some err) -> taskInfo = None.
Proof.
  destruct a as [stack|[i|] [stack|]]; simpl; intros [= <- _]; reflexivity.
Qed.

(** X18: while the task reports a TaskInProgress fault Retry calls again at
    once, without sleeping; the result of the first call that succeeds is
    returned. *)
Theorem Retry_in_progress_then_success (k fuel i j : nat) (b : Z)
    (slept : list Z) (info : option TaskInfo) :
  (forall n, (n < k)%nat -> inProgress (attempts (i + n))) ->
  attempts (i + k) = Waited info None ->
  (k < fuel)%nat ->
  Retry fuel attempts selects rnd i j b slept = Returned (info, None) slept.
Proof.
  revert fuel i. induction k as [|k IH]; intros fuel i Hbusy Hdone Hfuel.
  - destruct fuel as [|fuel]; [lia|]. simpl.
    rewrite Nat.add_0_r in Hdone. rewrite Hdone. reflexivity.
  - destruct fuel as [|fuel]; [lia|]. simpl.
    destruct (Hbusy 0%nat ltac:(lia)) as (ti & stack & message & Ha & Herr).
    rewrite Nat.add_0_r in Ha. rewrite Ha. simpl. rewrite Herr. simpl.
    apply IH; [| |lia].
    + intros n Hn. replace (S i + n)%nat with (i + S n)%nat by lia.
      apply Hbusy. lia.
    + replace (S i + k)%nat with (i + S k)%nat by lia. exact Hdone.
Qed.

(** X19: what Retry can return.  A result without error is the info of a
    call that succeeded; an error is the context's error or a task error that
    carries a localized fault without a fault object, and comes with a nil
    info.  The error of a failed invocation is never returned. *)
Theorem Retry_returns (fuel i j : nat) (b : Z) (slept slept' : list Z)
    (taskInfo : option TaskInfo) (err : option RetryError) :
  Retry fuel attempts selects rnd i j b slept = Returned (taskInfo, err) slept' ->
  match err with
  | None => exists n, attempts n = Waited taskInfo None
  | Some (ECtx e) => taskInfo = None /\ exists m, selects m = CtxDone e
  | Some (ETask te) =>
      taskInfo = None
      /\ exists lmf, taskError te = Some lmf /\ Fault_ lmf = None
  end.
Proof.
  revert i j b slept.
  induction fuel as [|fuel IH]; intros i j b slept; simpl; [discriminate|].
  destruct (WaitForResult (attempts i)) as [[ti [te|]]|] eqn:Hw;
    [| |discriminate].
  - pose proof (WaitForResult_error_info _ _ _ Hw) as ->.
    destruct (taskError te) as [lmf|] eqn:Hte; [|discriminate].
    destruct (Fault_ lmf) as [fault|] eqn:Hf.
    + destruct (isTaskInProgress fault); [apply IH|].
      destruct (selects j) eqn:Hsel; [discriminate|].
      intros [= <- <- _]. split; [reflexivity|]. exists j. exact Hsel.
    + intros [= <- <- _]. split; [reflexivity|]. exists lmf. auto.
  - intros [= <- <- _]. exists i.
    destruct (attempts i) as [stack|info [stack|]]; simpl in Hw;
      try discriminate.
    + destruct info; discriminate.
    + injection Hw as <-. reflexivity.
Qed.

(** X20: a call of Retry sleeps at most once, and then for 50 to 149
    milliseconds: after a sleep that the timer ends it panics on the nil task
    info instead of calling again, and the factor of the back-off is still 1
    when it sleeps. *)
Theorem Retry_sleeps_at_most_once (fuel i j : nat) :
  (forall n, 0 <= rnd n < 100) ->
  match Retry fuel attempts selects rnd i j 1 [] with
  | Returned _ slept | Panicked slept =>
      slept = [] \/ exists ms, slept = [ms] /\ 50 <= ms <= 149
  | Running => True
  end.
Proof.
  intros Hrnd. revert i.
  induction fuel as [|fuel IH]; intros i; simpl; [exact I|].
  destruct (WaitForResult (attempts i)) as [[ti [te|]]|] eqn:Hw;
    [| left; reflexivity | left; reflexivity].
  pose proof (WaitForResult_error_info _ _ _ Hw) as ->.
  destruct (taskError te) as [lmf|]; [|left; reflexivity].
  destruct (Fault_ lmf) as [fault|]; [|left; reflexivity].
  destruct (isTaskInProgress fault); [apply IH|].
  specialize (Hrnd j).
  destruct (selects j); right; eexists; (split; [reflexivity|lia]).
Qed.

End TaskFacts.

(** ** The container handlers and the network container *)

Section HandlerFacts.
Import Handlers.
Local Open Scope Z_scope.

(** X21: the state names the two handlers use agree: a request names a state
    exactly when that state is reported under the same name. *)
Theorem requested_reported_agree (param : string) (s : State) :
  requestedState param = Some s <-> reportedState s = Some param.
Proof.
  unfold requestedState. split.
  - repeat case_bool_decide; intros [= <-]; subst; reflexivity.
  - destruct s; simpl; intros [= <-]; reflexivity.
Qed.

(** X22: the wait handler uses three minutes when the requested timeout is
    zero or negative, and the requested number of seconds when it is
    positive and at most 9223372036, the largest number of seconds an int64
    of nanoseconds holds. *)
Theorem waitTimeout_seconds (t : Z) :
  (t <= 0 -> waitTimeout t = 180 * 1000000000)
  /\ (0 < t <= 9223372036 -> waitTimeout t = t * 1000000000).
Proof.
  unfold waitTimeout, containerWaitSeconds, int64. split; intros Ht.
  - destruct (t >? 0) eqn:Hgt; [lia|]. reflexivity.
  - destruct (t >? 0) eqn:Hgt; [|lia].
    rewrite Z.mod_small by lia. lia.
Qed.

Lemma splitOn_not_nil (sep : ascii) (s : string) : splitOn sep s <> [].
Proof.
  induction s as [|c s IH]; simpl; [discriminate|].
  case_bool_decide; [discriminate|].
  destruct (splitOn sep s); [contradiction|discriminate].
Qed.

Lemma splitOn_no_sep (sep : ascii) (s : string) :
  ~ occurs sep s -> splitOn sep s = [s].
Proof.
  induction s as [|c s IH]; simpl; intros Hno; [reflexivity|].
  rewrite bool_decide_eq_false_2 by tauto.
  rewrite IH by tauto. reflexivity.
Qed.

Lemma splitOn_app (sep : ascii) (a b : string) :
  splitOn sep (a +:+ String sep b) = splitOn sep a ++ splitOn sep b.
Proof.
  induction a as [|c a IH].
  - change (splitOn sep (String sep b) = splitOn sep "" ++ splitOn sep b).
    simpl. rewrite bool_decide_eq_true_2 by reflexivity. reflexivity.
  - rewrite app_cons. simpl. rewrite IH.
    case_bool_decide; [reflexivity|].
    pose proof (splitOn_not_nil sep a) as Hne.
    destruct (splitOn sep a); [contradiction|reflexivity].
Qed.

(** X23: an alias without a colon is reported as it is; of an alias
    "scope:name" the part after the first colon, up to the next one, is
    reported. *)
Theorem endpointAlias_parts (a b : string) :
  ~ occurs ":" a ->
  endpointAlias a = a
  /\ (~ occurs ":" b -> endpointAlias (a +:+ ":" +:+ b) = b)
  /\ forall c, ~ occurs ":" b ->
               endpointAlias (a +:+ ":" +:+ b +:+ ":" +:+ c) = b.
Proof.
  intros Ha. unfold endpointAlias. split; [|split].
  - rewrite splitOn_no_sep by exact Ha. reflexivity.
  - intros Hb. change (a +:+ ":" +:+ b) with (a +:+ String ":" b).
    rewrite splitOn_app, (splitOn_no_sep _ a Ha), (splitOn_no_sep _ b Hb).
    reflexivity.
  - intros c Hb.
    change (a +:+ ":" +:+ b +:+ ":" +:+ c)
      with (a +:+ String ":" (b +:+ String ":" c)).
    rewrite splitOn_app, (splitOn_no_sep _ a Ha).
    rewrite splitOn_app, (splitOn_no_sep _ b Hb).
    pose proof (splitOn_not_nil ":" c) as Hne.
    destruct (splitOn ":" c); [contradiction|reflexivity].
Qed.

End HandlerFacts.

Section NetworkFacts.
Import Network.

Lemma firstOfScope_app (s : nat) (es more : list Endpoint) :
  firstOfScope s (es ++ more)
  = match firstOfScope s es with
    | Some e => Some e
    | None => firstOfScope s more
    end.
Proof.
  induction es as [|e es IH]; simpl; [reflexivity|].
  case_bool_decide; [reflexivity|exact IH].
Qed.

(** X24: adding an endpoint never changes the endpoint found for a scope
    that already has one or for another scope, and makes the new endpoint the
    one found for its scope when the container had none there. *)
Theorem addEndpoint_endpoint (c : Container) (e : Endpoint) (s : nat) :
  endpoint (addEndpoint c e) s
  = match endpoint c s with
    | Some found => Some found
    | None => if bool_decide (Scope e = s) then Some e else None
    end.
Proof.
  unfold endpoint, addEndpoint. simpl. rewrite firstOfScope_app. reflexivity.
Qed.

End NetworkFacts.

(** ** The properties above on concrete inputs *)

Section MoreRuns.
Import Mem Cases MoreCases.

Lemma mkdirAll_nil_witness :
  Sink.mkdirAll 1 "/vol" dirMode (sink emptyVol (Tar.NewReader []))
    = Sink.Done None (sink emptyVol (Tar.NewReader []))
  /\ (Os.IsDir dirMode = true
      /\ exists info, Lookup (Sink.fs (sink emptyVol (Tar.NewReader []))) "/vol"
                        = Ok info
                      /\ Os.IsDir (Os.Mode info) = true).
Proof.
  assert (H1 : Sink.mkdirAll 1 "/vol" dirMode
                 (sink emptyVol (Tar.NewReader []))
               = Sink.Done None (sink emptyVol (Tar.NewReader [])))
    by (vm_compute; reflexivity).
  split; [exact H1|].
  exact (mkdirAll_nil_only_for_existing_directory 1 "/vol" dirMode _ _ H1).
Defined.

Lemma mkdirAll_never_returns_witness :
  Os.IsDir dirMode = true
  /\ Path.Split "/vol/a/b" = ("/vol/a/", "b")
  /\ Lookup (Sink.fs (sink emptyVol (Tar.NewReader []))) "/vol/a/b"
     = Fail ErrNotExist
  /\ "/vol/a/" <> "/"
  /\ Lookup (Sink.fs (sink emptyVol (Tar.NewReader []))) "/vol/a/"
     = Fail ErrNotExist
  /\ Sink.mkdirAll 7 "/vol/a/b" dirMode (sink emptyVol (Tar.NewReader []))
     = Sink.Diverge.
Proof.
  assert (H1 : Os.IsDir dirMode = true) by reflexivity.
  assert (H2 : Path.Split "/vol/a/b" = ("/vol/a/", "b")) by reflexivity.
  assert (H3 : Lookup (Sink.fs (sink emptyVol (Tar.NewReader []))) "/vol/a/b"
               = Fail ErrNotExist) by (vm_compute; reflexivity).
  assert (H4 : "/vol/a/" <> "/") by discriminate.
  assert (H5 : Lookup (Sink.fs (sink emptyVol (Tar.NewReader []))) "/vol/a/"
               = Fail ErrNotExist) by (vm_compute; reflexivity).
  split; [exact H1|]. split; [exact H2|]. split; [exact H3|].
  split; [exact H4|]. split; [exact H5|].
  exact (mkdirAll_missing_parent_never_returns 7 "/vol/a/b" "/vol/a/" "b"
           dirMode (sink emptyVol (Tar.NewReader [])) ErrNotExist
           H1 H2 H3 H4 H5).
Defined.

Lemma mkdirAll_panics_witness :
  Os.IsDir dirMode = true
  /\ Path.Split "/data" = ("/", "data")
  /\ Lookup (Sink.fs (sink emptyVol (Tar.NewReader []))) "/data"
     = Fail ErrNotExist
  /\ ("/" = "/"
      \/ exists info,
           Lookup (Sink.fs (sink emptyVol (Tar.NewReader []))) "/" = Ok info
           /\ Os.IsDir (Os.Mode info) = true)
  /\ Sink.mkdirAll 1 "/data" dirMode (sink emptyVol (Tar.NewReader []))
     = Sink.Panic "invalid memory address or nil pointer dereference"
         (sink emptyVol (Tar.NewReader [])).
Proof.
  assert (H1 : Os.IsDir dirMode = true) by reflexivity.
  assert (H2 : Path.Split "/data" = ("/", "data")) by reflexivity.
  assert (H3 : Lookup (Sink.fs (sink emptyVol (Tar.NewReader []))) "/data"
               = Fail ErrNotExist) by (vm_compute; reflexivity).
  assert (H4 : "/" = "/"
               \/ exists info,
                    Lookup (Sink.fs (sink emptyVol (Tar.NewReader []))) "/"
                      = Ok info
                    /\ Os.IsDir (Os.Mode info) = true)
    by (left; reflexivity).
  split; [exact H1|]. split; [exact H2|]. split; [exact H3|].
  split; [exact H4|].
  exact (mkdirAll_missing_leaf_panics 0 "/data" "/" "data" dirMode
           (sink emptyVol (Tar.NewReader [])) ErrNotExist H1 H2 H3 H4).
Defined.

Lemma tmp_entry_skipped :
  Forall (skipped Archive.Excluded excludeTmp)
         [Tar.Entry tmpEntry (bytes "x")].
Proof. repeat constructor. Qed.

Lemma all_excluded_witness :
  Archive.RebasePath excludeTmp <> ""
  /\ Lookup (Sink.fs (sink emptyVol (Tar.NewReader []))) "/vol" = Ok volInfo
  /\ Forall (skipped Archive.Excluded excludeTmp)
            [Tar.Entry tmpEntry (bytes "x")]
  /\ length [Tar.Entry tmpEntry (bytes "x")] < 3
  /\ Sink.unpackUsingTarget Archive.Excluded 3 excludeTmp
       [Tar.Entry tmpEntry (bytes "x")] "/vol"
       (sink emptyVol (Tar.NewReader []))
     = Sink.Done None
         {| Sink.fs := Sink.fs (sink emptyVol (Tar.NewReader []));
            Sink.tr := {| Tar.remaining := []; Tar.items := [] |};
            Sink.log := Sink.log (sink emptyVol (Tar.NewReader []))
                        ++ preamble excludeTmp "/vol" |}.
Proof.
  assert (H1 : Archive.RebasePath excludeTmp <> "") by discriminate.
  assert (H2 : Lookup (Sink.fs (sink emptyVol (Tar.NewReader []))) "/vol"
               = Ok volInfo) by (vm_compute; reflexivity).
  assert (H4 : length [Tar.Entry tmpEntry (bytes "x")] < 3) by (simpl; lia).
  split; [exact H1|]. split; [exact H2|]. split; [exact tmp_entry_skipped|].
  split; [exact H4|].
  exact (unpackUsingTarget_all_excluded Archive.Excluded 3 excludeTmp
           [Tar.Entry tmpEntry (bytes "x")] "/vol"
           (sink emptyVol (Tar.NewReader [])) volInfo
           H1 H2 tmp_entry_skipped H4).
Defined.

Lemma corrupt_stream_witness :
  Archive.RebasePath excludeTmp <> ""
  /\ Lookup (Sink.fs (sink emptyVol (Tar.NewReader []))) "/vol" = Ok volInfo
  /\ Forall (skipped Archive.Excluded excludeTmp)
            [Tar.Entry tmpEntry (bytes "x")]
  /\ Backend "unexpected EOF" <> EOF
  /\ length [Tar.Entry tmpEntry (bytes "x")] < 3
  /\ Sink.unpackUsingTarget Archive.Excluded 3 excludeTmp
       ([Tar.Entry tmpEntry (bytes "x")]
        ++ Tar.Corrupt (Backend "unexpected EOF")
           :: [Tar.Entry srcEntry (bytes "abc")])
       "/vol" (sink emptyVol (Tar.NewReader []))
     = Sink.Done (Some (Backend "unexpected EOF"))
         {| Sink.fs := Sink.fs (sink emptyVol (Tar.NewReader []));
            Sink.tr := {| Tar.remaining := [];
                          Tar.items := [Tar.Entry srcEntry (bytes "abc")] |};
            Sink.log := (Sink.log (sink emptyVol (Tar.NewReader []))
                         ++ preamble excludeTmp "/vol")
                        ++ [Debugf
                              "Received error (%s) when attempting a tar read operation on target stream"
                              [errorText (Backend "unexpected EOF")]] |}.
Proof.
  assert (H1 : Archive.RebasePath excludeTmp <> "") by discriminate.
  assert (H2 : Lookup (Sink.fs (sink emptyVol (Tar.NewReader []))) "/vol"
               = Ok volInfo) by (vm_compute; reflexivity).
  assert (H3 : Backend "unexpected EOF" <> EOF) by discriminate.
  assert (H4 : length [Tar.Entry tmpEntry (bytes "x")] < 3) by (simpl; lia).
  split; [exact H1|]. split; [exact H2|]. split; [exact tmp_entry_skipped|].
  split; [exact H3|]. split; [exact H4|].
  exact (unpackUsingTarget_corrupt_stream Archive.Excluded 3 excludeTmp
           [Tar.Entry tmpEntry (bytes "x")]
           [Tar.Entry srcEntry (bytes "abc")] (Backend "unexpected EOF")
           "/vol" (sink emptyVol (Tar.NewReader [])) volInfo
           H1 H2 tmp_entry_skipped H3 H4).
Defined.

Lemma missing_volume_witness :
  Archive.RebasePath everything <> ""
  /\ Lookup (Sink.fs (sink emptyVol (Tar.NewReader []))) "/gone"
     = Fail ErrNotExist
  /\ (returned (Sink.unpackUsingTarget Archive.Excluded 3 everything
                  [Tar.Entry srcEntry (bytes "abc")] "/gone"
                  (sink emptyVol (Tar.NewReader [])))
      = Some (Some ErrNotExist)
      /\ match Sink.unpackUsingTarget Archive.Excluded 3 everything
                 [Tar.Entry srcEntry (bytes "abc")] "/gone"
                 (sink emptyVol (Tar.NewReader [])) with
         | Sink.Done _ st' =>
             Sink.fs st' = Sink.fs (sink emptyVol (Tar.NewReader []))
             /\ Sink.tr st' = Tar.NewReader [Tar.Entry srcEntry (bytes "abc")]
         | _ => False
         end).
Proof.
  assert (H1 : Archive.RebasePath everything <> "") by discriminate.
  assert (H2 : Lookup (Sink.fs (sink emptyVol (Tar.NewReader []))) "/gone"
               = Fail ErrNotExist) by (vm_compute; reflexivity).
  split; [exact H1|]. split; [exact H2|].
  exact (unpackUsingTarget_missing_volume Archive.Excluded 3 everything
           [Tar.Entry srcEntry (bytes "abc")] "/gone"
           (sink emptyVol (Tar.NewReader [])) ErrNotExist H1 H2).
Defined.

Lemma closes_with_encoder_error_witness :
  Source.packUsingTarget Archive.Excluded stale everything 2 "/vol"
    ([] : list Written)
  = Some {| Source.encoder := [RTrailer];
            Source.closes := [None];
            Source.oplog :=
              [Errorf_log "Lookup of target (%s) returned an error" ["/vol"]] |}
  /\ exists w : list Written,
       [RTrailer] = (Close w).1
       /\ [@None error] = [(Close w).2]
       /\ Source.terminal
            {| Source.encoder := [RTrailer];
               Source.closes := [None];
               Source.oplog :=
                 [Errorf_log "Lookup of target (%s) returned an error"
                             ["/vol"]] |}
          = (Close w).2.
Proof.
  assert (H1 : Source.packUsingTarget Archive.Excluded stale everything 2
                 "/vol" ([] : list Written)
               = Some {| Source.encoder := [RTrailer];
                         Source.closes := [None];
                         Source.oplog :=
                           [Errorf_log
                              "Lookup of target (%s) returned an error"
                              ["/vol"]] |})
    by (vm_compute; reflexivity).
  split; [exact H1|].
  exact (packUsingTarget_closes_with_encoder_error Archive.Excluded stale
           everything 2 "/vol" [] _ H1).
Defined.

Lemma root_skipped_witness :
  (Archive.Excluded (Path.Join "/vol" (Source.findReadTarget everything))
                    everything = true
   \/ exists e, Lookup stale (Path.Join "/vol"
                                (Source.findReadTarget everything)) = Fail e)
  /\ exists c,
       Source.packUsingTarget Archive.Excluded stale everything 2 "/vol"
         ([] : list Written) = Some c
       /\ Source.encoder c = (Close ([] : list Written)).1
       /\ Source.closes c = [(Close ([] : list Written)).2].
Proof.
  assert (H1 : Archive.Excluded
                 (Path.Join "/vol" (Source.findReadTarget everything))
                 everything = true
               \/ exists e, Lookup stale
                              (Path.Join "/vol"
                                 (Source.findReadTarget everything)) = Fail e).
  { right. exists (Backend "stale NFS file handle"). vm_compute. reflexivity. }
  split; [exact H1|].
  exact (packUsingTarget_root_skipped Archive.Excluded stale everything 0
           "/vol" [] H1).
Defined.

Lemma never_ends_witness :
  Archive.Excluded (Path.Join "/vol" (Source.findReadTarget everything))
                   everything = false
  /\ Lookup volA (Path.Join "/vol" (Source.findReadTarget everything))
     = Ok volInfo
  /\ Tar.FileInfoHeader volInfo ""
     = Ok {| Tar.Name := "vol/"; Tar.Typeflag := Tar.TypeDir;
             Tar.Mode := 493%Z; Tar.Size := 0%Z; Tar.Linkname := "" |}
  /\ (Tar.TypeDir = Tar.TypeDir ->
      exists children,
        ReadDir volA (Path.Join "/vol" (Source.findReadTarget everything))
          = Ok children)
  /\ Source.packUsingTarget Archive.Excluded volA everything 1000 "/vol"
       ([] : list Written) = None.
Proof.
  assert (H1 : Archive.Excluded
                 (Path.Join "/vol" (Source.findReadTarget everything))
                 everything = false) by (vm_compute; reflexivity).
  assert (H2 : Lookup volA (Path.Join "/vol" (Source.findReadTarget everything))
               = Ok volInfo) by (vm_compute; reflexivity).
  assert (H3 : Tar.FileInfoHeader volInfo ""
               = Ok {| Tar.Name := "vol/"; Tar.Typeflag := Tar.TypeDir;
                       Tar.Mode := 493%Z; Tar.Size := 0%Z;
                       Tar.Linkname := "" |}) by (vm_compute; reflexivity).
  assert (H4 : Tar.TypeDir = Tar.TypeDir ->
               exists children,
                 ReadDir volA
                   (Path.Join "/vol" (Source.findReadTarget everything))
                   = Ok children).
  { intros _. eexists. vm_compute. reflexivity. }
  split; [exact H1|]. split; [exact H2|]. split; [exact H3|].
  split; [exact H4|].
  exact (packUsingTarget_never_ends Archive.Excluded volA everything 1000
           "/vol" [] volInfo _ H1 H2 H3 H4).
Defined.

Lemma copies_file_witness :
  Source.readList (start [] ["/vol/f"]) = "/vol/f" :: []
  /\ Archive.Excluded "/vol/f" onlyF = false
  /\ Lookup volF "/vol/f" = Ok fInfo
  /\ Tar.FileInfoHeader fInfo "" = Ok fHeader
  /\ Tar.Typeflag fHeader = Tar.TypeReg
  /\ Tar.Size fHeader <> 0%Z
  /\ WriteHeader (Source.tw (start [] ["/vol/f"])) fHeader
     = ([RHeader fHeader], None)
  /\ Open volF "/vol/f"
     = Ok (Some {| Os.fileData := bytes "old"; Os.fileErr := None |})
  /\ Os.fileErr {| Os.fileData := bytes "old"; Os.fileErr := None |} = None
  /\ WriteData [RHeader fHeader] (bytes "old")
     = ([RHeader fHeader; RData (bytes "old")], None)
  /\ Source.packStep Archive.Excluded volF onlyF (start [] ["/vol/f"])
     = Source.Next {| Source.readList := "/vol/f" :: [];
                      Source.tw := [RHeader fHeader; RData (bytes "old")];
                      Source.err := Source.err (start [] ["/vol/f"]);
                      Source.log := Source.log (start [] ["/vol/f"]) |}.
Proof.
  assert (H1 : Source.readList (start ([] : list Written) ["/vol/f"])
               = "/vol/f" :: []) by reflexivity.
  assert (H2 : Archive.Excluded "/vol/f" onlyF = false)
    by (vm_compute; reflexivity).
  assert (H3 : Lookup volF "/vol/f" = Ok fInfo) by (vm_compute; reflexivity).
  assert (H4 : Tar.FileInfoHeader fInfo "" = Ok fHeader)
    by (vm_compute; reflexivity).
  assert (H5 : Tar.Typeflag fHeader = Tar.TypeReg) by reflexivity.
  assert (H6 : Tar.Size fHeader <> 0%Z) by discriminate.
  assert (H7 : WriteHeader (Source.tw (start [] ["/vol/f"])) fHeader
               = ([RHeader fHeader], None)) by reflexivity.
  assert (H8 : Open volF "/vol/f"
               = Ok (Some {| Os.fileData := bytes "old";
                             Os.fileErr := None |}))
    by (vm_compute; reflexivity).
  assert (H9 : Os.fileErr {| Os.fileData := bytes "old"; Os.fileErr := None |}
               = None) by reflexivity.
  assert (H10 : WriteData [RHeader fHeader] (bytes "old")
                = ([RHeader fHeader; RData (bytes "old")], None))
    by reflexivity.
  split; [exact H1|]. split; [exact H2|]. split; [exact H3|].
  split; [exact H4|]. split; [exact H5|]. split; [exact H6|].
  split; [exact H7|]. split; [exact H8|]. split; [exact H9|].
  split; [exact H10|].
  exact (packStep_copies_file Archive.Excluded volF onlyF
           (start [] ["/vol/f"]) "/vol/f" [] fInfo fHeader
           {| Os.fileData := bytes "old"; Os.fileErr := None |}
           [RHeader fHeader] [RHeader fHeader; RData (bytes "old")]
           H1 H2 H3 H4 H5 H6 H7 H8 H9 H10).
Defined.

Lemma empty_file_witness :
  Source.readList (start [] ["/vol/f"]) = "/vol/f" :: []
  /\ Archive.Excluded "/vol/f" onlyF = false
  /\ Lookup volEmptyF "/vol/f"
     = Ok {| Os.Name := "f"; Os.Size := 0%Z; Os.Mode := fileMode |}
  /\ Tar.FileInfoHeader
       {| Os.Name := "f"; Os.Size := 0%Z; Os.Mode := fileMode |} ""
     = Ok emptyFHeader
  /\ Tar.Typeflag emptyFHeader = Tar.TypeReg
  /\ Tar.Size emptyFHeader = 0%Z
  /\ WriteHeader (Source.tw (start [] ["/vol/f"])) emptyFHeader
     = ([RHeader emptyFHeader], None)
  /\ Source.packStep Archive.Excluded volEmptyF onlyF (start [] ["/vol/f"])
     = Source.Next {| Source.readList := "/vol/f" :: [];
                      Source.tw := [RHeader emptyFHeader];
                      Source.err := Source.err (start [] ["/vol/f"]);
                      Source.log := Source.log (start [] ["/vol/f"]) |}.
Proof.
  assert (H1 : Source.readList (start ([] : list Written) ["/vol/f"])
               = "/vol/f" :: []) by reflexivity.
  assert (H2 : Archive.Excluded "/vol/f" onlyF = false)
    by (vm_compute; reflexivity).
  assert (H3 : Lookup volEmptyF "/vol/f"
               = Ok {| Os.Name := "f"; Os.Size := 0%Z; Os.Mode := fileMode |})
    by (vm_compute; reflexivity).
  assert (H4 : Tar.FileInfoHeader
                 {| Os.Name := "f"; Os.Size := 0%Z; Os.Mode := fileMode |} ""
               = Ok emptyFHeader) by (vm_compute; reflexivity).
  assert (H5 : Tar.Typeflag emptyFHeader = Tar.TypeReg) by reflexivity.
  assert (H6 : Tar.Size emptyFHeader = 0%Z) by reflexivity.
  assert (H7 : WriteHeader (Source.tw (start [] ["/vol/f"])) emptyFHeader
               = ([RHeader emptyFHeader], None)) by reflexivity.
  split; [exact H1|]. split; [exact H2|]. split; [exact H3|].
  split; [exact H4|]. split; [exact H5|]. split; [exact H6|].
  split; [exact H7|].
  exact (packStep_empty_file_not_opened Archive.Excluded volEmptyF onlyF
           (start [] ["/vol/f"]) "/vol/f" [] _ emptyFHeader
           [RHeader emptyFHeader] H1 H2 H3 H4 H5 H6 H7).
Defined.

Lemma permission_denied_witness :
  Source.readList (start [] ["/vol/f"]) = "/vol/f" :: []
  /\ Archive.Excluded "/vol/f" onlyF = false
  /\ Lookup forbidden "/vol/f" = Ok fInfo
  /\ Tar.FileInfoHeader fInfo "" = Ok fHeader
  /\ Tar.Typeflag fHeader = Tar.TypeReg
  /\ Tar.Size fHeader <> 0%Z
  /\ WriteHeader (Source.tw (start [] ["/vol/f"])) fHeader
     = ([RHeader fHeader], None)
  /\ Open forbidden "/vol/f" = Fail ErrPermission
  /\ Source.packStep Archive.Excluded forbidden onlyF (start [] ["/vol/f"])
     = Source.Next {| Source.readList := "/vol/f" :: [];
                      Source.tw := [RHeader fHeader];
                      Source.err := Source.err (start [] ["/vol/f"]);
                      Source.log := Source.log (start [] ["/vol/f"]) |}.
Proof.
  assert (H1 : Source.readList (start ([] : list Written) ["/vol/f"])
               = "/vol/f" :: []) by reflexivity.
  assert (H2 : Archive.Excluded "/vol/f" onlyF = false)
    by (vm_compute; reflexivity).
  assert (H3 : Lookup forbidden "/vol/f" = Ok fInfo)
    by (vm_compute; reflexivity).
  assert (H4 : Tar.FileInfoHeader fInfo "" = Ok fHeader)
    by (vm_compute; reflexivity).
  assert (H5 : Tar.Typeflag fHeader = Tar.TypeReg) by reflexivity.
  assert (H6 : Tar.Size fHeader <> 0%Z) by discriminate.
  assert (H7 : WriteHeader (Source.tw (start [] ["/vol/f"])) fHeader
               = ([RHeader fHeader], None)) by reflexivity.
  assert (H8 : Open forbidden "/vol/f" = Fail ErrPermission)
    by (vm_compute; reflexivity).
  split; [exact H1|]. split; [exact H2|]. split; [exact H3|].
  split; [exact H4|]. split; [exact H5|]. split; [exact H6|].
  split; [exact H7|]. split; [exact H8|].
  exact (packStep_permission_header_only Archive.Excluded forbidden onlyF
           (start [] ["/vol/f"]) "/vol/f" [] fInfo fHeader
           [RHeader fHeader] H1 H2 H3 H4 H5 H6 H7 H8).
Defined.

Lemma toOsError_idempotent_witness :
  errorText ErrNotExist <> "404 Not Found"
  /\ KV.toOsError errorText (KV.toOsError errorText (Backend "404 Not Found"))
     = KV.toOsError errorText (Backend "404 Not Found").
Proof.
  assert (H1 : errorText ErrNotExist <> "404 Not Found") by discriminate.
  split; [exact H1|].
  exact (toOsError_idempotent errorText (Backend "404 Not Found") H1).
Defined.

Lemma Save_move_error_witness :
  KV.Upload fullDisk (bytes "v1") ("/kv/config" +:+ ".tmp")
    = (fullDiskUploaded, None)
  /\ KV.Mv fullDiskUploaded ("/kv/config" +:+ ".tmp") "/kv/config"
     = (fullDiskUploaded, Some (Backend "no space left on device"))
  /\ KV.isFileFault noFault (Backend "no space left on device") = false
  /\ KV.Save noFault retryOnce fullDisk (bytes "v1") "/kv/config"
     = (fullDiskUploaded, Some (Backend "no space left on device")).
Proof.
  assert (H1 : KV.Upload fullDisk (bytes "v1") ("/kv/config" +:+ ".tmp")
               = (fullDiskUploaded, None)) by (vm_compute; reflexivity).
  assert (H2 : KV.Mv fullDiskUploaded ("/kv/config" +:+ ".tmp") "/kv/config"
               = (fullDiskUploaded, Some (Backend "no space left on device")))
    by (vm_compute; reflexivity).
  assert (H3 : KV.isFileFault noFault (Backend "no space left on device")
               = false) by reflexivity.
  split; [exact H1|]. split; [exact H2|]. split; [exact H3|].
  exact (Save_move_error_not_retried noFault retryOnce fullDisk
           fullDiskUploaded fullDiskUploaded (bytes "v1") "/kv/config"
           (Backend "no space left on device") H1 H2 H3).
Defined.

Lemma busyTwice_in_progress :
  forall n, n < 2 -> Tasks.inProgress (busyTwice (0 + n)).
Proof.
  intros n Hn. exists busyInfo, "in progress", "busy".
  destruct n as [|[|n]]; [split; reflexivity|split; reflexivity|lia].
Qed.

Lemma Retry_in_progress_witness :
  (forall n, n < 2 -> Tasks.inProgress (busyTwice (0 + n)))
  /\ busyTwice (0 + 2) = Tasks.Waited (Some doneInfo) None
  /\ 2 < 5
  /\ Tasks.Retry 5 busyTwice timerFirst draws 0 0 1%Z []
     = Tasks.Returned (Some doneInfo, None) [].
Proof.
  assert (H2 : busyTwice (0 + 2) = Tasks.Waited (Some doneInfo) None)
    by reflexivity.
  assert (H3 : 2 < 5) by lia.
  split; [exact busyTwice_in_progress|]. split; [exact H2|].
  split; [exact H3|].
  exact (Retry_in_progress_then_success busyTwice timerFirst draws 2 5 0 0
           1%Z [] (Some doneInfo) busyTwice_in_progress H2 H3).
Defined.

Lemma Retry_returns_witness :
  Tasks.Retry 3 alwaysFails cancelled draws 0 0 1%Z []
    = Tasks.Returned (None, Some (Tasks.ECtx "context deadline exceeded"))
                     [92%Z]
  /\ ((None : option Tasks.TaskInfo) = None
      /\ exists m, cancelled m = Tasks.CtxDone "context deadline exceeded").
Proof.
  assert (H1 : Tasks.Retry 3 alwaysFails cancelled draws 0 0 1%Z []
               = Tasks.Returned
                   (None, Some (Tasks.ECtx "context deadline exceeded"))
                   [92%Z]) by reflexivity.
  split; [exact H1|].
  exact (Retry_returns alwaysFails cancelled draws 3 0 0 1%Z [] [92%Z] None
           (Some (Tasks.ECtx "context deadline exceeded")) H1).
Defined.

Lemma draws_in_range : forall n, (0 <= draws n < 100)%Z.
Proof. intros n. unfold draws. lia. Qed.

Lemma Retry_sleeps_witness :
  (forall n, (0 <= draws n < 100)%Z)
  /\ match Tasks.Retry 3 alwaysFails timerFirst draws 0 0 1%Z [] with
     | Tasks.Returned _ slept | Tasks.Panicked slept =>
         slept = [] \/ exists ms, slept = [ms] /\ (50 <= ms <= 149)%Z
     | Tasks.Running => True
     end.
Proof.
  split; [exact draws_in_range|].
  exact (Retry_sleeps_at_most_once alwaysFails timerFirst draws 3 0 0
           draws_in_range).
Defined.

Example Retry_panics_after_sleep :
  Tasks.Retry 3 alwaysFails timerFirst draws 0 0 1%Z []
    = Tasks.Panicked [92%Z].
Proof. reflexivity. Qed.

Lemma waitTimeout_witness :
  (-5 <= 0)%Z
  /\ (0 < 30 <= 9223372036)%Z
  /\ Handlers.waitTimeout (-5) = (180 * 1000000000)%Z
  /\ Handlers.waitTimeout 30 = (30 * 1000000000)%Z.
Proof.
  assert (H1 : (-5 <= 0)%Z) by lia.
  assert (H2 : (0 < 30 <= 9223372036)%Z) by lia.
  split; [exact H1|]. split; [exact H2|]. split.
  - exact (proj1 (waitTimeout_seconds (-5)) H1).
  - exact (proj2 (waitTimeout_seconds 30) H2).
Defined.

Lemma no_colon_web : ~ Handlers.occurs ":" "web".
Proof.
  simpl. intros H.
  repeat (destruct H as [H|H]; [discriminate H|]). exact H.
Qed.

Lemma endpointAlias_witness :
  ~ Handlers.occurs ":" "web"
  /\ Handlers.endpointAlias "web" = "web"
  /\ (~ Handlers.occurs ":" "web" ->
      Handlers.endpointAlias ("web" +:+ ":" +:+ "web") = "web")
  /\ forall c, ~ Handlers.occurs ":" "web" ->
               Handlers.endpointAlias
                 ("web" +:+ ":" +:+ "web" +:+ ":" +:+ c) = "web".
Proof.
  split; [exact no_colon_web|].
  exact (endpointAlias_parts "web" "web" no_colon_web).
Defined.

Lemma writes_new_file_witness :
  Lookup (Sink.fs (sink emptyVol (atData "new"))) "/vol/new"
    = Fail ErrNotExist
  /\ OpenFile (Sink.fs (sink emptyVol (atData "new"))) "/vol/new" fileMode
     = (volNewOpened, None)
  /\ Write volNewOpened "/vol/new"
       (Tar.remaining (Sink.tr (sink emptyVol (atData "new"))))
     = (volNewWritten, None)
  /\ Sink.createRegularFile "/vol/new" fileMode (sink emptyVol (atData "new"))
     = Sink.Done None
         {| Sink.fs := volNewWritten;
            Sink.tr := {| Tar.remaining := [];
                          Tar.items :=
                            Tar.items (Sink.tr (sink emptyVol (atData "new"))) |};
            Sink.log := Sink.log (sink emptyVol (atData "new")) |}.
Proof.
  assert (H1 : Lookup (Sink.fs (sink emptyVol (atData "new"))) "/vol/new"
               = Fail ErrNotExist) by (vm_compute; reflexivity).
  assert (H2 : OpenFile (Sink.fs (sink emptyVol (atData "new"))) "/vol/new"
                 fileMode = (volNewOpened, None)) by (vm_compute; reflexivity).
  assert (H3 : Write volNewOpened "/vol/new"
                 (Tar.remaining (Sink.tr (sink emptyVol (atData "new"))))
               = (volNewWritten, None)) by (vm_compute; reflexivity).
  split; [exact H1|]. split; [exact H2|]. split; [exact H3|].
  exact (createRegularFile_writes_new_file "/vol/new" fileMode
           (sink emptyVol (atData "new")) volNewOpened volNewWritten None
           H1 H2 H3).
Defined.

Example written_file_reads_back :
  Open volNewWritten "/vol/new"
    = Ok (Some {| Os.fileData := bytes "new"; Os.fileErr := None |}).
Proof. vm_compute. reflexivity. Qed.

(** C10 fails as stated: on a store where no file can be opened for write
    at [/vol/new], an import of a regular-file entry for that path does not
    complete successfully.  It returns the error of mkdirAll, which the
    import calls on the same path before createRegularFile, so the failing
    OpenFile is not reached. *)
Lemma C10_import_does_not_succeed :
  OpenFile readOnly "/vol/new" fileMode
    = (readOnly, Some (Backend "read-only file system"))
  /\ Sink.writePath (Path.Join "/vol" (Archive.RebasePath everything))
       (Archive.StripPath everything) (Tar.Name newEntry) = "/vol/new"
  /\ forall fuel,
       Sink.Import Archive.Excluded (S fuel) "/vol" everything
         [Tar.Entry newEntry (bytes "new")] (sink readOnly (Tar.NewReader []))
       = Sink.Done (Some (Errorf "caller supplied non dir based file mode" []))
           {| Sink.fs := readOnly;
              Sink.tr := {| Tar.remaining := bytes "new"; Tar.items := [] |};
              Sink.log := preamble everything "/vol" |}.
Proof.
  split; [vm_compute; reflexivity|]. split; [vm_compute; reflexivity|].
  intros fuel.
  unfold Sink.Import.
  rewrite (unpackUsingTarget_enters_loop Archive.Excluded (S fuel) everything
             _ "/vol" _ volInfo);
    [|discriminate|vm_compute; reflexivity].
  cbn [Sink.unpackLoop]. unfold Sink.bind, Sink.next. cbn [Sink.tr Sink.fs Sink.log sink].
  unfold Sink.unpackEntry.
  replace (Archive.Excluded (Tar.Name newEntry) everything) with false
    by (vm_compute; reflexivity).
  reflexivity.
Qed.

End MoreRuns.
